(** * SESMG: construction of the energy-system node list

    A shallow embedding of [program_files/create_objects.py]: the bus
    registry ([buses]) and the builder classes [Sources], [Sinks],
    [Transformers], [Storages] and [Links], which turn the rows of a
    scenario workbook into the ordered list of oemof nodes.

    Conventions of the embedding.
    - Numbers of the workbook are rationals ([Q]); a value of a series is
      an [xnum]: a rational, an infinity or the missing value [NaN].
    - Python dictionaries are finite maps ([gmap]); a dictionary keyed by
      bus objects is keyed by the label of the bus, which is how oemof
      hashes and compares its nodes.
    - Methods that mutate [self] or a shared list run in the state and
      exception monad [M]: the state survives a raised exception, as in
      Python.
    - Functions of feedinlib, demandlib, richardsonpy and oemof.thermal are
      fields of the class [Libraries]. *)

From Stdlib Require Import ZArith QArith Qfield Lqa String List Lia.
From stdpp Require Import base option list gmap strings.

Open Scope string_scope.
Open Scope list_scope.
Open Scope Z_scope.

(** ** Exceptions and the builder monad *)

Inductive exn : Type :=
| SystemError (msg : string)
| KeyError (key : string)
| AttributeError (name : string)
| UnboundLocalError (name : string)
| ValueError (msg : string)
| OverflowError (msg : string)
| IndexError
| ZeroDivisionError.

Inductive result (A : Type) : Type :=
| Ok (a : A)
| Raise (e : exn).
Arguments Ok {A} a.
Arguments Raise {A} e.

Definition M (S A : Type) : Type := S -> result A * S.

#[export] Instance M_ret {S} : MRet (M S) := fun A a s => (Ok a, s).

#[export] Instance M_bind {S} : MBind (M S) := fun A B f m s =>
  match m s with
  | (Ok a, s') => f a s'
  | (Raise e, s') => (Raise e, s')
  end.

Definition raise {S A} (e : exn) : M S A := fun s => (Raise e, s).
Definition get {S} : M S S := fun s => (Ok s, s).
Definition modify {S} (f : S -> S) : M S unit := fun s => (Ok tt, f s).

(** [d[k]] on a dictionary: [KeyError] when the key is absent. *)
Definition getitem {S A} (d : gmap string A) (k : string) : M S A :=
  match d !! k with
  | Some v => mret v
  | None => raise (KeyError k)
  end.

Definition lift_result {S A} (r : result A) : M S A :=
  match r with
  | Ok a => mret a
  | Raise e => raise e
  end.

(** [for x in l: body x] *)
Fixpoint for_each {S A} (l : list A) (body : A -> M S unit) : M S unit :=
  match l with
  | [] => mret tt
  | x :: l' => body x ;; for_each l' body
  end.

Definition succeeds {S A} (r : result A * S) : bool :=
  match r with
  | (Ok _, _) => true
  | (Raise _, _) => false
  end.

(** ** Numbers *)

(** Truth value of a flag cell ([if b['active']:]). *)
Definition truthy (z : Z) : bool := negb (z =? 0).

(** Truth value of a string ([if 'text':]). *)
Definition str_truthy (s : string) : bool := negb (String.eqb s "").

Definition Qltb (x y : Q) : bool := negb (Qle_bool y x).

(** A floating-point value as far as the builders look at it: a number,
    an infinity or a missing value ([nan]). Cells of the workbook that the
    code computes with are plain rationals; values of computed series and
    results of numpy operations are [xnum]. *)
Inductive xnum : Type :=
| Fin (q : Q)
| PInf
| NInf
| NaN.

(** [x < q] and [x > q]; a comparison with a missing value is false. *)
Definition xnum_ltb (x : xnum) (q : Q) : bool :=
  match x with
  | Fin v => Qltb v q
  | NInf => true
  | PInf | NaN => false
  end.

Definition xnum_gtb (x : xnum) (q : Q) : bool :=
  match x with
  | Fin v => Qltb q v
  | PInf => true
  | NInf | NaN => false
  end.

(** Division of a numpy value by a positive rational constant. *)
Definition xnum_div (x : xnum) (q : Q) : xnum :=
  match x with
  | Fin v => Fin (v / q)
  | other => other
  end.

(** [x == float('+inf')] *)
Definition is_pinf (x : xnum) : bool :=
  match x with
  | PInf => true
  | _ => false
  end.

Definition is_nan (x : xnum) : bool :=
  match x with
  | NaN => true
  | _ => false
  end.

Definition fill_value (q : Q) (x : xnum) : xnum :=
  match x with
  | NaN => Fin q
  | _ => x
  end.

(** [series.fillna(q)] *)
Definition fillna (q : Q) (l : list xnum) : list xnum :=
  map (fill_value q) l.

(** A value between 0 and 1, bounds included. *)
Definition in_unit_interval (x : xnum) : bool :=
  match x with
  | Fin v => Qle_bool 0 v && Qle_bool v 1
  | _ => false
  end.

Definition xnum_add (x y : xnum) : xnum :=
  match x, y with
  | Fin a, Fin b => Fin (a + b)
  | NaN, _ | _, NaN => NaN
  | PInf, NInf | NInf, PInf => NaN
  | PInf, _ | _, PInf => PInf
  | NInf, _ | _, NInf => NInf
  end.

(** [x == q] *)
Definition xnum_eqb (x : xnum) (q : Q) : bool :=
  match x with
  | Fin v => Qeq_bool v q
  | _ => false
  end.

(** numpy division and multiplication: a zero divisor gives an infinity
    or [nan], never an exception. *)
Definition np_div (a b : Q) : xnum :=
  if Qeq_bool b 0 then
    if Qeq_bool a 0 then NaN else if Qltb 0 a then PInf else NInf
  else Fin (a / b).

Definition np_mul (a : Q) (x : xnum) : xnum :=
  match x with
  | Fin q => Fin (a * q)
  | PInf => if Qeq_bool a 0 then NaN else if Qltb 0 a then PInf else NInf
  | NInf => if Qeq_bool a 0 then NaN else if Qltb 0 a then NInf else PInf
  | NaN => NaN
  end.

(** A keyword argument of a flow or of a component: a scalar or a series. *)
Inductive profile : Type :=
| Scalar (x : xnum)
| Series (l : list xnum).

(** A table with named columns (a pandas data frame). *)
Abbreviation DataFrame := (gmap string (list xnum)).

(** ** Flows and nodes *)

(** [solph.Investment(...)]; a keyword the call leaves out is [None]. *)
Record Investment : Type := mkInvestment {
  ep_costs : Q;
  periodical_constraint_costs : option Q;
  minimum : xnum;
  maximum : xnum;
  existing : Q;
  nonconvex : option bool;
  offset : option Q
}.

(** [solph.Investment(...)] ends with three checks of the library
    (oemof.solph, [_check_invest_attributes] and the two beside it): an
    existing capacity with a nonconvex investment, a nonconvex investment
    with an infinite maximum, and an offset without a nonconvex
    investment are refused with an [AttributeError]. A keyword that is
    left out has its default, [nonconvex=False] and [offset=0], so that
    a call with neither of the two is never refused; the builders below
    run the checks where a row sets them. The payload names the
    attribute the refused check is about, not the message of the
    library. *)
Definition solph_Investment (i : Investment) : result Investment :=
  let nonconvex_ := default false (nonconvex i) in
  let offset_ := default 0%Q (offset i) in
  if negb (Qeq_bool (existing i) 0) && nonconvex_ then
    Raise (AttributeError "existing")
  else if is_pinf (maximum i) && nonconvex_ then
    Raise (AttributeError "maximum")
  else if negb (Qeq_bool offset_ 0) && negb nonconvex_ then
    Raise (AttributeError "offset")
  else Ok i.

(** [solph.Investment] accepts the values. *)
Definition investment_accepted (i : Investment) : bool :=
  match solph_Investment i with
  | Ok _ => true
  | Raise _ => false
  end.

(** [solph.Flow(...)]: costs, the investment and the remaining keyword
    arguments ('fix', 'min', 'max', 'nominal_value', and the series of a
    combined heat and power unit) by name. *)
Record Flow : Type := mkFlow {
  variable_costs : option Q;
  emission_factor : option Q;
  investment : option Investment;
  flow_args : gmap string profile
}.

Definition empty_flow : Flow :=
  {| variable_costs := None; emission_factor := None;
     investment := None; flow_args := ∅ |}.

Record Bus : Type := mkBus { bus_label : string }.

(** Keyword arguments of [solph.components.GenericStorage]. *)
Record StorageArgs : Type := mkStorageArgs {
  min_storage_level : option Q;
  max_storage_level : option Q;
  loss_rate : profile;
  fixed_losses_relative : option profile;
  fixed_losses_absolute : option profile;
  inflow_conversion_factor : Q;
  outflow_conversion_factor : Q;
  invest_relation_input_capacity : Q;
  invest_relation_output_capacity : Q;
  storage_investment : Investment
}.

Inductive Node : Type :=
| NBus (b : Bus)
| NSource (label : string) (outputs : gmap string Flow)
| NSink (label : string) (inputs : gmap string Flow)
| NTransformer (label : string) (inputs outputs : gmap string Flow)
    (conversion_factors : gmap string profile)
| NGenericCHP (label : string)
    (fuel_input electrical_output heat_output : gmap string Flow)
    (Beta : list Q) (back_pressure : Q)
| NGenericStorage (label : string) (inputs outputs : gmap string Flow)
    (args : StorageArgs)
| NLink (label : string) (inputs outputs : gmap string Flow)
    (conversion_factors : gmap (string * string) Q).

Definition node_label (n : Node) : string :=
  match n with
  | NBus b => bus_label b
  | NSource l _ | NSink l _ | NTransformer l _ _ _
  | NGenericCHP l _ _ _ _ _ | NGenericStorage l _ _ _ | NLink l _ _ _ => l
  end.

Definition is_bus (n : Node) : bool :=
  match n with NBus _ => true | _ => false end.

(** ** Bus registry: [buses] *)

Record BusRow : Type := mkBusRow {
  b_label : string;
  b_active : Z;
  b_excess : Z;
  b_shortage : Z;
  b_excess_costs : Q;
  b_variable_excess_constraint_costs : Q;
  b_shortage_costs : Q;
  b_variable_shortage_constraint_costs : Q
}.

(** The two objects [buses] works on: the shared list [nodes] and the
    dictionary [busd] that it returns. *)
Record BusesState : Type := mkBusesState {
  bs_nodes : list Node;
  bs_busd : gmap string Bus
}.

Definition bs_append (n : Node) : M BusesState unit :=
  modify (fun s => {| bs_nodes := bs_nodes s ++ [n]; bs_busd := bs_busd s |}).

Definition bs_setitem (k : string) (b : Bus) : M BusesState unit :=
  modify (fun s => {| bs_nodes := bs_nodes s; bs_busd := <[k := b]> (bs_busd s) |}).

Definition bs_getitem (k : string) : M BusesState Bus :=
  s ← get; getitem (bs_busd s) k.

Definition excess_flow (b : BusRow) : Flow :=
  {| variable_costs := Some (b_excess_costs b);
     emission_factor := Some (b_variable_excess_constraint_costs b);
     investment := None; flow_args := ∅ |}.

Definition shortage_flow (b : BusRow) : Flow :=
  {| variable_costs := Some (b_shortage_costs b);
     emission_factor := Some (b_variable_shortage_constraint_costs b);
     investment := None; flow_args := ∅ |}.

(** The body of the loop of [buses] for one row. *)
Definition buses_row (b : BusRow) : M BusesState unit :=
  if truthy (b_active b) then
    let bus := mkBus (b_label b) in
    bs_append (NBus bus) ;;
    bs_setitem (b_label b) bus ;;
    (if truthy (b_excess b) then
       k ← bs_getitem (b_label b);
       bs_append (NSink (b_label b +:+ "_excess")
                        {[ bus_label k := excess_flow b ]})
     else mret tt) ;;
    (if truthy (b_shortage b) then
       k ← bs_getitem (b_label b);
       bs_append (NSource (b_label b +:+ "_shortage")
                          {[ bus_label k := shortage_flow b ]})
     else mret tt)
  else mret tt.

(** [buses(nodes_data, nodes)]: the dictionary starts empty; the result
    is the outcome, the list [nodes] afterwards and the dictionary. *)
Definition buses (rows : list BusRow) (nodes : list Node)
  : result unit * BusesState :=
  for_each rows buses_row {| bs_nodes := nodes; bs_busd := ∅ |}.

(** The nodes one row of the bus table adds. *)
Definition buses_row_nodes (b : BusRow) : list Node :=
  if truthy (b_active b) then
    [NBus (mkBus (b_label b))]
    ++ (if truthy (b_excess b)
        then [NSink (b_label b +:+ "_excess") {[ b_label b := excess_flow b ]}]
        else [])
    ++ (if truthy (b_shortage b)
        then [NSource (b_label b +:+ "_shortage") {[ b_label b := shortage_flow b ]}]
        else [])
  else [].

(** ** The scenario workbook and the libraries *)

(** The sheets of the scenario file that the builders read themselves:
    the companion time series and the first row of 'energysystem'. *)
Record Scenario : Type := mkScenario {
  time_series : DataFrame;
  temporal_resolution : string;
  periods : Z;
  start_year : Z
}.

Record PVParams : Type := mkPVParams {
  pv_azimuth : Q;
  pv_surface_tilt : Q;
  pv_modul_model : string;
  pv_inverter_model : string;
  pv_albedo : Q;
  pv_latitude : Q;
  pv_longitude : Q
}.

Record WindParams : Type := mkWindParams {
  wind_turbine_model : string;
  wind_hub_height : Q
}.

Record SolarHeatParams : Type := mkSolarHeatParams {
  sh_latitude : Q;
  sh_longitude : Q;
  sh_surface_tilt : Q;
  sh_azimuth : Q;
  sh_cleanliness : Q;
  sh_eta_0 : Q;
  sh_a1 : Q;
  sh_a2 : Q;
  sh_c1 : Q;
  sh_c2 : Q;
  sh_temperature_inlet : Q;
  sh_temperature_difference : Q;
  sh_conversion_factor : Q;
  sh_peripheral_losses : Q;
  sh_electric_consumption : Q
}.

(** A row of the 'sources' sheet. [so_input] is the cell as [str] prints
    it, which is how [create_source] reads it. *)
Record SourceRow : Type := mkSourceRow {
  so_label : string;
  so_active : Z;
  so_fixed : Z;
  so_output : string;
  so_input : string;
  so_technology : string;
  so_variable_costs : Q;
  so_variable_constraint_costs : Q;
  so_existing_capacity : Q;
  so_min_investment_capacity : Q;
  so_max_investment_capacity : Q;
  so_periodical_costs : Q;
  so_periodical_constraint_costs : Q;
  so_non_convex_investment : Z;
  so_fix_investment_costs : Q;
  so_pv : PVParams;
  so_wind : WindParams;
  so_solar_heat : SolarHeatParams
}.

(** A row of the 'demand' sheet. *)
Record SinkRow : Type := mkSinkRow {
  de_label : string;
  de_active : Z;
  de_fixed : Z;
  de_input : string;
  de_load_profile : string;
  de_nominal_value : Q;
  de_annual_demand : Q;
  de_occupants : Z;
  de_building_class : Z;
  de_wind_class : Z
}.

Record CHTParams : Type := mkCHTParams {
  cht_heat_source : string;
  cht_temperature_high : Q;
  cht_temperature_low : Q;
  cht_quality_grade : Q;
  cht_area : Q;
  cht_length_of_the_geoth_probe : Q;
  cht_heat_extraction : Q;
  cht_min_borehole_area : Q;
  cht_temp_threshold_icing : Q;
  cht_factor_icing : Q
}.

Record CHPParams : Type := mkCHPParams {
  chp_share_of_flue_gas_loss_at_max_heat_extraction : Q;
  chp_share_of_flue_gas_loss_at_min_heat_extraction : Q;
  chp_max_electric_power_without_district_heating : Q;
  chp_min_electric_power_without_district_heating : Q;
  chp_el_eff_at_max_fuel_flow : Q;
  chp_el_eff_at_min_fuel_flow : Q;
  chp_minimal_therm_condenser_load : Q;
  chp_power_loss_index : Q;
  chp_back_pressure : Q
}.

Record AbsCHParams : Type := mkAbsCHParams {
  abs_name : string;
  abs_high_temperature : Q;
  abs_chilling_temperature : Q;
  abs_electrical_input_conversion_factor : Q;
  abs_recooling_temperature_difference : Q
}.

(** A row of the 'transformers' sheet. The generic transformer and the
    combined heat and power unit read the constraint costs of the second
    output under two spellings of the column name; the record has one
    field for both. *)
Record TransformerRow : Type := mkTransformerRow {
  tf_label : string;
  tf_active : Z;
  tf_transformer_type : string;
  tf_mode : string;
  tf_input : string;
  tf_output : string;
  tf_output2 : string;
  tf_efficiency : Q;
  tf_efficiency2 : Q;
  tf_variable_input_costs : Q;
  tf_variable_output_costs : Q;
  tf_variable_output_costs_2 : Q;
  tf_variable_input_constraint_costs : Q;
  tf_variable_output_constraint_costs : Q;
  (** 'variable output constraint costs 2 /(CU/kWh)' *)
  tf_variable_output_constraint_costs_2 : Q;
  (** 'variable output constraint costs 2/(CU/kWh)', the spelling of
      [genericchp_transformer] *)
  tf_variable_output_constraint_costs_2_chp : Q;
  tf_existing_capacity : Q;
  tf_min_investment_capacity : Q;
  tf_max_investment_capacity : Q;
  tf_periodical_costs : Q;
  tf_periodical_constraint_costs : Q;
  tf_non_convex_investment : Z;
  tf_fix_investment_costs : Q;
  tf_cht : CHTParams;
  tf_chp : CHPParams;
  tf_abs : AbsCHParams
}.

(** A row of the 'storages' sheet. *)
Record StorageRow : Type := mkStorageRow {
  s_label : string;
  s_active : Z;
  s_storage_type : string;
  s_bus : string;
  s_existing_capacity : Q;
  s_min_investment_capacity : Q;
  s_max_investment_capacity : Q;
  s_periodical_costs : Q;
  s_periodical_constraint_costs : Q;
  s_non_convex_investment : Z;
  s_fix_investment_costs : Q;
  s_input_capacity_ratio : Q;
  s_output_capacity_ratio : Q;
  s_capacity_loss : Q;
  s_efficiency_inflow : Q;
  s_efficiency_outflow : Q;
  s_capacity_min : Q;
  s_capacity_max : Q;
  s_variable_input_costs : Q;
  s_variable_output_costs : Q;
  s_variable_input_constraint_costs : Q;
  s_variable_output_constraint_costs : Q;
  s_diameter : Q;
  s_temperature_high : Q;
  s_temperature_low : Q;
  s_u_value : Q
}.

(** A row of the 'links' sheet. *)
Record LinkRow : Type := mkLinkRow {
  link_label : string;
  link_active : Z;
  link_directed : string;
  link_bus_1 : string;
  link_bus_2 : string;
  link_efficiency : Q;
  link_variable_output_costs : Q;
  link_variable_constraint_costs : Q;
  link_existing_capacity : Q;
  link_min_investment_capacity : Q;
  link_max_investment_capacity : Q;
  link_periodical_costs : Q;
  link_periodical_constraint_costs : Q;
  link_non_convex_investment : Z;
  link_fix_investment_costs : Q
}.

(** The coefficients of one absorption chiller in
    'technical_data/characteristic_parameters.csv'. *)
Record CharPara : Type := mkCharPara {
  coef_a : Q;
  coef_e : Q;
  coef_s_E : Q;
  coef_r_E : Q;
  coef_s_G : Q;
  coef_r_G : Q
}.

(** What the builders call in feedinlib, oemof.thermal, demandlib and
    richardsonpy. The builders pass the results on; none of these
    functions is part of the program. *)
Class Libraries : Type := {
  (** the [feedin] of [powerplants.Photovoltaic] for the parameter set,
      the weather and the location, scaled to peak power *)
  pv_feedin : PVParams -> DataFrame -> list xnum;
  (** the [feedin] of [WindPowerPlant] scaled to nominal power, on the
      columns wind speed, temperature,
      roughness length and pressure *)
  wind_feedin : WindParams -> list xnum -> list xnum -> list xnum -> list xnum
                -> list xnum;
  (** [flat_plate_precalc]: [collectors_heat] and [col_ira] from global
      and diffuse irradiance and ambient temperature *)
  flat_plate_precalc : SolarHeatParams -> list xnum -> list xnum -> list xnum
                       -> list xnum * list xnum;
  (** [csp_precalc]: [collector_heat] and [collector_irradiance] from the
      outlet temperature, ambient temperature and direct irradiance *)
  csp_precalc : SolarHeatParams -> Q -> list xnum -> list xnum
                -> list xnum * list xnum;
  (** [bdew.HeatBuilding(index, **args).get_bdew_profile()]: profile type,
      wind class, building class if given, temperature, number of periods
      and resolution *)
  heat_building_profile : string -> Z -> option Z -> list xnum -> Z -> string
                          -> list xnum;
  (** [bdew.ElecSlp(year).get_profile({name: 1})] resampled to the
      resolution: the columns of the resulting frame *)
  elec_slp_profile : Z -> string -> string -> DataFrame;
  (** [ElectricLoad(occ_profile=Occupancy(n).occupancy, total_nb_occ=n,
      q_direct, q_diffuse, timestep).loadcurve] *)
  loadcurve : Z -> list xnum -> list xnum -> Z -> list Q;
  (** [calc_cops(temp_high, temp_low, quality_grade, temp_threshold_icing,
      factor_icing, mode)] *)
  calc_cops : list xnum -> list xnum -> Q -> option Q -> option Q -> string
              -> result (list Q);
  (** [calculate_losses(u_value, diameter, temp_h, temp_c, temp_env)] *)
  calculate_losses : Q -> Q -> Q -> Q -> list xnum
                     -> profile * profile * profile;
  (** [calc_characteristic_temp(t_hot, t_cool, t_chill, coef_a, coef_e)] *)
  calc_characteristic_temp : Q -> list Z -> Q -> Q -> Q -> list Q;
  (** [calc_heat_flux(ddts, coef_s, coef_r)] *)
  calc_heat_flux : list Q -> Q -> Q -> list Q;
  (** the rows of the characteristic parameters by chiller name *)
  char_para : gmap string CharPara
}.

(** ** Helpers shared by the builders *)

Definition str_in (s : string) (l : list string) : bool :=
  existsb (String.eqb s) l.

(** [True if x == 1 else False] *)
Definition is_one (z : Z) : bool := z =? 1.

(** [for i in range(len(created)): nodes.append(created[i])] *)
Definition append_all (nodes created : list Node) : list Node :=
  fold_left (fun acc n => acc ++ [n]) created nodes.

(** Sum of two columns of a data frame, row by row. *)
Definition series_add (a b : list xnum) : list xnum := zip_with xnum_add a b.

Definition fixed_error (label : string) : exn :=
  SystemError (label +:+ " Error in fixed attribute").

(** ** Source builder: class [Sources] *)

(** The attributes of a [Sources] object and the weather frame [data],
    a local of [__init__] that the methods receive and modify. *)
Record SourcesState : Type := mkSourcesState {
  nodes_sources : list Node;
  sources_busd : gmap string Bus;
  sources_data : DataFrame
}.

Definition so_append (n : Node) : M SourcesState unit :=
  modify (fun s => {| nodes_sources := nodes_sources s ++ [n];
                      sources_busd := sources_busd s;
                      sources_data := sources_data s |}).

Definition so_set_bus (k : string) (b : Bus) : M SourcesState unit :=
  modify (fun s => {| nodes_sources := nodes_sources s;
                      sources_busd := <[k := b]> (sources_busd s);
                      sources_data := sources_data s |}).

Definition so_set_column (k : string) (c : list xnum) : M SourcesState unit :=
  modify (fun s => {| nodes_sources := nodes_sources s;
                      sources_busd := sources_busd s;
                      sources_data := <[k := c]> (sources_data s) |}).

Definition so_bus (k : string) : M SourcesState Bus :=
  s ← get; getitem (sources_busd s) k.

(** [data[k]] *)
Definition so_column (k : string) : M SourcesState (list xnum) :=
  s ← get; getitem (sources_data s) k.

(** [data.k] *)
Definition so_attribute (k : string) : M SourcesState (list xnum) :=
  s ← get;
  match sources_data s !! k with
  | Some c => mret c
  | None => raise (AttributeError k)
  end.

(** [data['ghi'] = (data.dirhi + data.dhi)] *)
Definition so_add_ghi : M SourcesState unit :=
  dirhi ← so_attribute "dirhi";
  dhi ← so_attribute "dhi";
  so_set_column "ghi" (series_add dirhi dhi).

Definition checklist : list string :=
  ["X"; "x"; ""; "0"; "None"; "none"; "nan"].

Definition source_investment (so : SourceRow) : Investment :=
  let scale (q : Q) : Q :=
    if str_in (so_input so) checklist then q
    else (q * sh_conversion_factor (so_solar_heat so))%Q in
  {| ep_costs := so_periodical_costs so;
     periodical_constraint_costs := Some (so_periodical_constraint_costs so);
     minimum := Fin (scale (so_min_investment_capacity so));
     maximum := Fin (scale (so_max_investment_capacity so));
     existing := scale (so_existing_capacity so);
     nonconvex := Some (is_one (so_non_convex_investment so));
     offset := Some (so_fix_investment_costs so) |}.

(** The flow [create_source] builds around [timeseries_args]. *)
Definition source_flow (so : SourceRow) (timeseries_args : gmap string profile)
  : Flow :=
  {| variable_costs := Some (so_variable_costs so);
     emission_factor := Some (so_variable_constraint_costs so);
     investment := Some (source_investment so);
     flow_args := timeseries_args |}.

Definition create_source (so : SourceRow)
    (timeseries_args : gmap string profile) (output : option Bus)
  : M SourcesState unit :=
  out ← match output with
        | None => so_bus (so_output so)
        | Some b => mret b
        end;
  lift_result (solph_Investment (source_investment so)) ;;
  so_append (NSource (so_label so)
                     {[ bus_label out := source_flow so timeseries_args ]}).

Definition commodity_source (so : SourceRow) : M SourcesState unit :=
  create_source so (<["max" := Scalar (Fin 1)]> {[ "min" := Scalar (Fin 0) ]})
                None.

Definition timeseries_source (so : SourceRow) (filepath : Scenario)
  : M SourcesState unit :=
  args ←
    (if so_fixed so =? 1 then
       fix_ ← getitem (time_series filepath) (so_label so +:+ ".fix");
       mret ({[ "fix" := Series fix_ ]} : gmap string profile)
     else if so_fixed so =? 0 then
       min_ ← getitem (time_series filepath) (so_label so +:+ ".min");
       max_ ← getitem (time_series filepath) (so_label so +:+ ".max");
       mret (<["max" := Series max_]> {[ "min" := Series min_ ]})
     else raise (fixed_error (so_label so)));
  create_source so args None.

(** One round of the loop that prepares the photovoltaic feed-in: the
    two comparisons at position [i], then [fillna(0)] on the series. *)
Definition clip_step (feedin : list xnum) (i : nat) : list xnum :=
  let f1 :=
    match feedin !! i with
    | Some v => if xnum_ltb v 0 then <[i := Fin 0]> feedin else feedin
    | None => feedin
    end in
  let f2 :=
    match f1 !! i with
    | Some v => if xnum_gtb v 1 then <[i := Fin 1]> f1 else f1
    | None => f1
    end in
  fillna 0 f2.

(** [for i in range(len(feedin)): ...] *)
Definition clip_feedin (feedin : list xnum) : list xnum :=
  fold_left clip_step (seq 0 (length feedin)) feedin.

(** The arguments of a source whose series is computed: 'fix', or 'min'
    0 and 'max', by the fixed flag. *)
Definition computed_args (so : SourceRow) (series : list xnum)
  : M SourcesState (gmap string profile) :=
  if so_fixed so =? 1 then mret {[ "fix" := Series series ]}
  else if so_fixed so =? 0 then
    mret (<["max" := Series series]> {[ "min" := Scalar (Fin 0) ]})
  else raise (fixed_error (so_label so)).

Section SourceBuilder.
Context `{Libraries}.

Definition pv_source (so : SourceRow) : M SourcesState unit :=
  so_add_ghi ;;
  s ← get;
  let feedin := clip_feedin (pv_feedin (so_pv so) (sources_data s)) in
  args ← computed_args so feedin;
  create_source so args None.

(** ['a', 'b'], a list of strings as Python prints it. *)
Definition py_repr_list (l : list string) : string :=
  "[" +:+ String.concat ", " (map (fun c => "'" +:+ c +:+ "'") l) +:+ "]".

(** [data[columns]] with a list of column names: one [KeyError] that
    names every missing column, in the words of pandas. *)
Definition so_select (columns : list string) : M SourcesState unit :=
  s ← get;
  let missing :=
    filter (fun c => negb (bool_decide (is_Some (sources_data s !! c))))
           columns in
  if bool_decide (missing = []) then mret tt
  else if bool_decide (missing = columns) then
    raise (KeyError ("None of [Index(" +:+ py_repr_list columns
                     +:+ ", dtype='object')] are in the [columns]"))
  else raise (KeyError (py_repr_list missing +:+ " not in index")).

Definition windpower_source (so : SourceRow) : M SourcesState unit :=
  so_select ["windspeed"; "temperature"; "z0"; "pressure"] ;;
  windspeed ← so_column "windspeed";
  temperature ← so_column "temperature";
  z0 ← so_column "z0";
  pressure ← so_column "pressure";
  let feedin_wind_scaled :=
    wind_feedin (so_wind so) windspeed temperature z0 pressure in
  args ← computed_args so feedin_wind_scaled;
  create_source so args None.

(** [collectors_heat] of [solar_heat_source]: bound in the two branches
    on the technology, unbound otherwise. *)
Definition collectors_heat (so : SourceRow)
  : M SourcesState (option (list xnum)) :=
  let p := so_solar_heat so in
  if String.eqb (so_technology so) "solar_thermal_flat_plate" then
    ghi ← so_column "ghi";
    dhi ← so_column "dhi";
    temperature ← so_column "temperature";
    let precalc_results := flat_plate_precalc p ghi dhi temperature in
    mret (Some (map (fun x => xnum_div x 1000) (fst precalc_results)))
  else if String.eqb (so_technology so) "concentrated_solar_power" then
    let temp_collector_outlet :=
      (sh_temperature_inlet p + sh_temperature_difference p)%Q in
    e_dir_hor ← so_column "dirhi";
    temperature ← so_column "temperature";
    let precalc_results :=
      csp_precalc p temp_collector_outlet temperature e_dir_hor in
    mret (Some (map (fun x => xnum_div x 1000) (fst precalc_results)))
  else mret None.

(** The arguments [solar_heat_source] hands to [create_source]. *)
Definition solar_heat_args (so : SourceRow) (heat : option (list xnum))
  : M SourcesState (gmap string profile) :=
  if (so_fixed so =? 1) || (so_fixed so =? 0) then
    match heat with
    | Some series => computed_args so series
    | None => raise (UnboundLocalError "collectors_heat")
    end
  else raise (fixed_error (so_label so)).

Definition zero_cost_flow : Flow :=
  {| variable_costs := Some 0%Q; emission_factor := None;
     investment := None; flow_args := ∅ |}.

Definition solar_heat_source (so : SourceRow) : M SourcesState unit :=
  let p := so_solar_heat so in
  let col_bus := mkBus (so_label so +:+ "_bus") in
  so_append (NBus col_bus) ;;
  so_set_bus (so_label so +:+ "_bus") col_bus ;;
  so_add_ghi ;;
  heat ← collectors_heat so;
  args ← solar_heat_args so heat;
  create_source so args (Some col_bus) ;;
  in_1 ← so_bus (so_label so +:+ "_bus");
  in_2 ← so_bus (so_input so);
  out ← so_bus (so_output so);
  cf_1 ← so_bus (so_label so +:+ "_bus");
  cf_2 ← so_bus (so_input so);
  cf_3 ← so_bus (so_output so);
  so_append
    (NTransformer (so_label so +:+ "_collector")
       (<[bus_label in_2 := zero_cost_flow]> {[ bus_label in_1 := zero_cost_flow ]})
       {[ bus_label out := zero_cost_flow ]}
       (<[bus_label cf_3 := Scalar (Fin (1 - sh_peripheral_losses p)%Q)]>
        (<[bus_label cf_2 :=
             Scalar (Fin (sh_electric_consumption p
                          * (1 - sh_peripheral_losses p))%Q)]>
         {[ bus_label cf_1 := Scalar (Fin 1) ]}))).

(** The body of the loop of [Sources.__init__]. The condition of the
    last branch is [so['technology'] == 'solar_thermal_flat_plate' or
    'concentrated_solar_power']. *)
Definition sources_row (filepath : Scenario) (so : SourceRow)
  : M SourcesState unit :=
  if truthy (so_active so) then
    if String.eqb (so_technology so) "other" then commodity_source so
    else if String.eqb (so_technology so) "photovoltaic" then pv_source so
    else if String.eqb (so_technology so) "windpower" then windpower_source so
    else if String.eqb (so_technology so) "timeseries" then
      timeseries_source so filepath
    else if String.eqb (so_technology so) "solar_thermal_flat_plate"
            || str_truthy "concentrated_solar_power" then
      solar_heat_source so
    else mret tt
  else mret tt.

(** [Sources(nodes_data, nodes, busd, filepath)]: the outcome and the
    shared list [nodes] afterwards. [data] is the weather file the
    constructor reads; [busd] is copied, so the caller's dictionary stays
    as it is. *)
Definition Sources_init (rows : list SourceRow) (nodes : list Node)
    (busd : gmap string Bus) (filepath : Scenario) (data : DataFrame)
  : result unit * list Node :=
  match for_each rows (sources_row filepath)
          {| nodes_sources := []; sources_busd := busd;
             sources_data := data |} with
  | (Ok _, s) => (Ok tt, append_all nodes (nodes_sources s))
  | (Raise e, _) => (Raise e, nodes)
  end.

End SourceBuilder.

(** ** Sink builder: class [Sinks] *)

Record SinksState : Type := mkSinksState {
  nodes_sinks : list Node;
  sinks_busd : gmap string Bus
}.

Definition de_append (n : Node) : M SinksState unit :=
  modify (fun s => {| nodes_sinks := nodes_sinks s ++ [n];
                      sinks_busd := sinks_busd s |}).

Definition de_bus (k : string) : M SinksState Bus :=
  s ← get; getitem (sinks_busd s) k.

(** The flow [create_sink] builds: the arguments and nothing else. *)
Definition sink_flow (timeseries_args : gmap string profile) : Flow :=
  {| variable_costs := None; emission_factor := None;
     investment := None; flow_args := timeseries_args |}.

Definition create_sink (de : SinkRow) (timeseries_args : gmap string profile)
  : M SinksState unit :=
  input ← de_bus (de_input de);
  de_append (NSink (de_label de)
                   {[ bus_label input := sink_flow timeseries_args ]}).

Definition unfixed_sink_args (de : SinkRow) : gmap string profile :=
  {[ "nominal_value" := Scalar (Fin (de_nominal_value de)) ]}.

Definition unfixed_sink (de : SinkRow) : M SinksState unit :=
  create_sink de (unfixed_sink_args de).

(** The arguments [timeseries_sink] hands to [create_sink]. *)
Definition timeseries_sink_args (de : SinkRow) (filepath : Scenario)
  : M SinksState (gmap string profile) :=
  let args : gmap string profile :=
    {[ "nominal_value" := Scalar (Fin (de_nominal_value de)) ]} in
  if de_fixed de =? 0 then
    min_ ← getitem (time_series filepath) (de_label de +:+ ".min");
    max_ ← getitem (time_series filepath) (de_label de +:+ ".max");
    mret (<["max" := Series max_]> (<["min" := Series min_]> args))
  else if de_fixed de =? 1 then
    fix_ ← getitem (time_series filepath) (de_label de +:+ ".fix");
    mret (<["fix" := Series fix_]> args)
  else mret args.

Definition timeseries_sink (de : SinkRow) (filepath : Scenario)
  : M SinksState unit :=
  args ← timeseries_sink_args de filepath;
  create_sink de args.

Definition heat_slps : list string := ["efh"; "mfh"].

Definition heat_slps_commercial : list string :=
  ["gmf"; "gpd"; "ghd"; "gwa"; "ggb"; "gko"; "gbd"; "gba";
   "gmk"; "gbh"; "gga"; "gha"].

Definition electricity_slps : list string :=
  ["h0"; "g0"; "g1"; "g2"; "g3"; "g4"; "g5"; "g6"; "l0"; "l1"; "l2"].

Definition slps : list string :=
  ["efh"; "mfh"; "gmf"; "gpd"; "ghd"; "gwa"; "ggb"; "gko"; "gbd";
   "gba"; "gmk"; "gbh"; "gga"; "gha"; "h0"; "g0"; "g1"; "g2";
   "g3"; "g4"; "g5"; "g6"; "l0"; "l1"; "l2"].

(** [timestep] of [richardson_sink], in seconds. *)
Definition richardson_timestep (temp_resolution : string) : option Z :=
  if String.eqb temp_resolution "H" then Some 3600
  else if String.eqb temp_resolution "h" then Some 3600
  else if String.eqb temp_resolution "min" then Some 60
  else if String.eqb temp_resolution "s" then Some 1
  else None.

(** [if nb_occ > 5: nb_occ = 5] *)
Definition clamp_occupants (nb_occ : Z) : Z :=
  if nb_occ >? 5 then 5 else nb_occ.

Definition Qsum (l : list Q) : Q := fold_left Qplus l 0%Q.

(** [sum(loadcurve) * timestep / (3600 * 1000)]: the energy in kWh of a
    load curve in W. *)
Definition richardson_demand (curve : list Q) (timestep : Z) : Q :=
  (Qsum curve * inject_Z timestep / (3600 * 1000))%Q.

(** [0.001 * demand_ratio] with [demand_ratio = annual_demand /
    richardson_demand], a division by a numpy number. *)
Definition richardson_nominal_value (annual_demand : Q) (curve : list Q)
    (timestep : Z) : xnum :=
  np_mul 0.001%Q (np_div annual_demand (richardson_demand curve timestep)).

Section SinkBuilder.
Context `{Libraries}.

(** The frame [demand] of [slp_sink] once the profile is computed. *)
Definition slp_demand (de : SinkRow) (filepath : Scenario) (data : DataFrame)
  : M SinksState DataFrame :=
  let lp := de_load_profile de in
  if str_in lp heat_slps_commercial || str_in lp heat_slps then
    temperature ← getitem data "temperature";
    let building_class :=
      if str_in lp heat_slps then Some (de_building_class de) else None in
    mret {[ lp := heat_building_profile lp (de_wind_class de) building_class
                    temperature (periods filepath)
                    (temporal_resolution filepath) ]}
  else if str_in lp electricity_slps then
    mret (elec_slp_profile (start_year filepath) lp
            (temporal_resolution filepath))
  else mret ∅.

(** The arguments [slp_sink] hands to [create_sink]. *)
Definition slp_sink_args (de : SinkRow) (demand : DataFrame)
  : M SinksState (gmap string profile) :=
  let args : gmap string profile :=
    {[ "nominal_value" := Scalar (Fin (de_annual_demand de)) ]} in
  if de_fixed de =? 1 then
    profile_ ← getitem demand (de_load_profile de);
    mret (<["fix" := Series profile_]> args)
  else if de_fixed de =? 0 then
    profile_ ← getitem demand (de_load_profile de);
    mret (<["max" := Series profile_]> args)
  else mret args.

Definition slp_sink (de : SinkRow) (filepath : Scenario) (data : DataFrame)
  : M SinksState unit :=
  demand ← slp_demand de filepath data;
  args ← slp_sink_args de demand;
  create_sink de args.

(** The error of [pd.read_csv(..., usecols=[column])] on a file without
    the column. *)
Definition usecols_error (column : string) : exn :=
  ValueError ("Usecols do not match columns, columns expected but not found: ['"
              +:+ column +:+ "']").

(** The load curve [richardson_sink] simulates and its time step. *)
Definition richardson_curve (de : SinkRow) (filepath : Scenario)
    (data : DataFrame) : M SinksState (list Q * Z) :=
  dirhi ← match data !! "dirhi" with
          | Some c => mret c
          | None => raise (usecols_error "dirhi")
          end;
  dhi ← match data !! "dhi" with
        | Some c => mret c
        | None => raise (usecols_error "dhi")
        end;
  let dhi := map (fun x => xnum_div x 1000) dhi in
  let dirhi := map (fun x => xnum_div x 1000) dirhi in
  let nb_occ := clamp_occupants (de_occupants de) in
  match richardson_timestep (temporal_resolution filepath) with
  | Some timestep => mret (loadcurve nb_occ dirhi dhi timestep, timestep)
  | None => raise (SystemError "Invalid Temporal Resolution")
  end.

(** The arguments [richardson_sink] hands to [create_sink]. *)
Definition richardson_sink_args (de : SinkRow) (load_profile : list Q)
    (timestep : Z) : gmap string profile :=
  let args : gmap string profile :=
    {[ "nominal_value" :=
         Scalar (richardson_nominal_value (de_annual_demand de)
                                          load_profile timestep) ]} in
  if de_fixed de =? 1 then <["fix" := Series (map Fin load_profile)]> args
  else if de_fixed de =? 0 then <["max" := Series (map Fin load_profile)]> args
  else args.

Definition richardson_sink (de : SinkRow) (filepath : Scenario)
    (data : DataFrame) : M SinksState unit :=
  '(load_profile, timestep) ← richardson_curve de filepath data;
  create_sink de (richardson_sink_args de load_profile timestep).

(** The body of the loop of [Sinks.__init__]. *)
Definition sinks_row (filepath : Scenario) (data : DataFrame) (de : SinkRow)
  : M SinksState unit :=
  if truthy (de_active de) then
    if String.eqb (de_load_profile de) "x" then unfixed_sink de
    else if String.eqb (de_load_profile de) "timeseries" then
      timeseries_sink de filepath
    else if str_in (de_load_profile de) slps then slp_sink de filepath data
    else if String.eqb (de_load_profile de) "richardson" then
      richardson_sink de filepath data
    else mret tt
  else mret tt.

(** [Sinks(nodes_data, busd, nodes, filepath)]; [data] is the 'weather
    data' sheet, which the constructor writes to the file the methods
    read. *)
Definition Sinks_init (rows : list SinkRow) (busd : gmap string Bus)
    (nodes : list Node) (filepath : Scenario) (data : DataFrame)
  : result unit * list Node :=
  match for_each rows (sinks_row filepath data)
          {| nodes_sinks := []; sinks_busd := busd |} with
  | (Ok _, s) => (Ok tt, append_all nodes (nodes_sinks s))
  | (Raise e, _) => (Raise e, nodes)
  end.

End SinkBuilder.

(** ** Transformer builder: class [Transformers] *)

(** [nodes_transformer] and [busd]; the dictionary is the caller's own
    object, so what the methods add to it stays. *)
Record TransformersState : Type := mkTransformersState {
  nodes_transformer : list Node;
  transformers_busd : gmap string Bus
}.

Definition tf_append (n : Node) : M TransformersState unit :=
  modify (fun s => {| nodes_transformer := nodes_transformer s ++ [n];
                      transformers_busd := transformers_busd s |}).

Definition tf_set_bus (k : string) (b : Bus) : M TransformersState unit :=
  modify (fun s => {| nodes_transformer := nodes_transformer s;
                      transformers_busd := <[k := b]> (transformers_busd s) |}).

Definition tf_bus (k : string) : M TransformersState Bus :=
  s ← get; getitem (transformers_busd s) k.

(** Division of Python floats. *)
Definition py_div (a b : Q) : result Q :=
  if Qeq_bool b 0 then Raise ZeroDivisionError else Ok (a / b)%Q.

(** [[f x for x in l]] where [f] may raise. *)
Fixpoint list_comprehension {A B} (f : A -> result B) (l : list A)
  : result (list B) :=
  match l with
  | [] => Ok []
  | x :: l' =>
      match f x with
      | Ok y =>
          match list_comprehension f l' with
          | Ok ys => Ok (y :: ys)
          | Raise e => Raise e
          end
      | Raise e => Raise e
      end
  end.

(** [int(x)]: towards zero; no integer for a missing or infinite value. *)
Definition py_int (x : xnum) : result Z :=
  match x with
  | Fin q => Ok (Z.quot (Qnum q) (Z.pos (Qden q)))
  | NaN => Raise (ValueError "cannot convert float NaN to integer")
  | PInf | NInf =>
      Raise (OverflowError "cannot convert float infinity to integer")
  end.

Definition create_transformer (tf : TransformerRow)
    (inputs outputs : gmap string Flow)
    (conversion_factors : gmap string profile) : M TransformersState unit :=
  tf_append (NTransformer (tf_label tf) inputs outputs conversion_factors).

Definition transformer_input_flow (tf : TransformerRow) : Flow :=
  {| variable_costs := Some (tf_variable_input_costs tf);
     emission_factor := Some (tf_variable_input_constraint_costs tf);
     investment := None; flow_args := ∅ |}.

(** The investment of the first output of a generic transformer. *)
Definition generic_investment (tf : TransformerRow) : Investment :=
  {| ep_costs := tf_periodical_costs tf;
     periodical_constraint_costs := Some (tf_periodical_constraint_costs tf);
     minimum := Fin (tf_min_investment_capacity tf);
     maximum := Fin (tf_max_investment_capacity tf);
     existing := tf_existing_capacity tf;
     nonconvex := Some (is_one (tf_non_convex_investment tf));
     offset := Some (tf_fix_investment_costs tf) |}.

Definition generic_output_flow (tf : TransformerRow) : Flow :=
  {| variable_costs := Some (tf_variable_output_costs tf);
     emission_factor := Some (tf_variable_output_constraint_costs tf);
     investment := Some (generic_investment tf);
     flow_args := ∅ |}.

(** The investment of the second output, sized by [ratio], which is
    efficiency2 over efficiency. *)
Definition generic_investment2 (tf : TransformerRow) (ratio : Q)
  : Investment :=
  {| ep_costs := 0;
     periodical_constraint_costs := None;
     minimum := Fin (ratio * tf_min_investment_capacity tf)%Q;
     maximum := Fin (ratio * tf_max_investment_capacity tf)%Q;
     existing := (ratio * tf_existing_capacity tf)%Q;
     nonconvex := Some (is_one (tf_non_convex_investment tf));
     offset := Some (tf_fix_investment_costs tf) |}.

Definition generic_output2_flow (tf : TransformerRow) (ratio : Q) : Flow :=
  {| variable_costs := Some (tf_variable_output_costs_2 tf);
     emission_factor := Some (tf_variable_output_constraint_costs_2 tf);
     investment := Some (generic_investment2 tf ratio);
     flow_args := ∅ |}.

Definition generic_transformer (tf : TransformerRow)
  : M TransformersState unit :=
  out ← tf_bus (tf_output tf);
  lift_result (solph_Investment (generic_investment tf)) ;;
  let outputs : gmap string Flow :=
    {[ bus_label out := generic_output_flow tf ]} in
  cf_out ← tf_bus (tf_output tf);
  let conversion_factors : gmap string profile :=
    {[ bus_label cf_out := Scalar (Fin (tf_efficiency tf)) ]} in
  '(outputs, conversion_factors) ←
    (if negb (str_in (tf_output2 tf) ["None"; "none"; "x"]) then
       ratio ← lift_result (py_div (tf_efficiency2 tf) (tf_efficiency tf));
       out2 ← tf_bus (tf_output2 tf);
       lift_result (solph_Investment (generic_investment2 tf ratio)) ;;
       cf_out2 ← tf_bus (tf_output2 tf);
       mret (<[bus_label out2 := generic_output2_flow tf ratio]> outputs,
             <[bus_label cf_out2 := Scalar (Fin (tf_efficiency2 tf))]>
               conversion_factors)
     else mret (outputs, conversion_factors));
  input ← tf_bus (tf_input tf);
  create_transformer tf {[ bus_label input := transformer_input_flow tf ]}
                     outputs conversion_factors.

(** [temp] of the heat transformers: bound for the two modes only. *)
Definition mode_suffix (mode : string) : option string :=
  if String.eqb mode "heat_pump" then Some "_low_temp"
  else if String.eqb mode "chiller" then Some "_high_temp"
  else None.

(** The label of the heat source of a compression heat transformer and
    its capacity; [None] for an unknown heat source. *)
Definition heat_source_of (tf : TransformerRow) (temp : string)
  : option (string * result xnum) :=
  let p := tf_cht tf in
  if String.eqb (cht_heat_source p) "Ground" then
    Some (tf_label tf +:+ temp +:+ "_ground_source",
          match py_div (cht_length_of_the_geoth_probe p * cht_heat_extraction p)%Q
                       (cht_min_borehole_area p) with
          | Ok q => Ok (Fin (cht_area p * q)%Q)
          | Raise e => Raise e
          end)
  else if String.eqb (cht_heat_source p) "GroundWater" then
    Some (tf_label tf +:+ temp +:+ "_groundwater_source", Ok PInf)
  else if String.eqb (cht_heat_source p) "Air" then
    Some (tf_label tf +:+ temp +:+ "_air_source", Ok PInf)
  else if String.eqb (cht_heat_source p) "Water" then
    Some (tf_label tf +:+ temp +:+ "_water_source", Ok PInf)
  else None.

Definition heat_source_flow (maximum_ : xnum) : Flow :=
  {| variable_costs := Some 0%Q; emission_factor := None;
     investment := Some
       {| ep_costs := 0; periodical_constraint_costs := None;
          minimum := Fin 0; maximum := maximum_; existing := 0;
          nonconvex := None; offset := None |};
     flow_args := ∅ |}.

(** [x + 0.1] on doubles, as far as the sum can be told from [x]. From
    2^50 upwards and below -2^50 neighbouring doubles are 0.25 or more
    apart and the sum is rounded back to [x]; in between the sum differs
    from [x] and is taken in the rationals. *)
Definition add_tenth (x : Q) : Q :=
  if Qle_bool (inject_Z (2 ^ 50)) x || Qltb x (inject_Z (- 2 ^ 50)) then x
  else (x + 0.1)%Q.

(** One round of the loop over the high temperatures of an air-source
    chiller: [if value == temp_low_value: temp_high[index] =
    temp_low_value + 0.1]. *)
Definition air_chiller_step (temp_low_value : Q) (temp_high : list xnum)
    (index : nat) : list xnum :=
  match temp_high !! index with
  | Some value =>
      if xnum_eqb value temp_low_value
      then <[index := Fin (add_tenth temp_low_value)]> temp_high
      else temp_high
  | None => temp_high
  end.

(** [for index, value in enumerate(temp_high): ...] *)
Definition air_chiller_temp_high (temperature : list xnum)
    (temp_low_value : Q) : list xnum :=
  fold_left (air_chiller_step temp_low_value)
            (seq 0 (length temperature)) temperature.

(** The column of the weather data a heat source takes its temperature
    from. *)
Definition heat_source_column (heat_source : string) : option string :=
  if String.eqb heat_source "Ground" then Some "ground_temp"
  else if String.eqb heat_source "GroundWater" then Some "groundwater_temp"
  else if String.eqb heat_source "Air" then Some "temperature"
  else if String.eqb heat_source "Water" then Some "water_temp"
  else None.

(** [temp_high] and [temp_low] as [compression_heat_transformer] hands
    them to [calc_cops]. *)
Definition cht_temperatures (tf : TransformerRow) (data : DataFrame)
  : M TransformersState (list xnum * list xnum) :=
  let p := tf_cht tf in
  match heat_source_column (cht_heat_source p) with
  | None => raise (SystemError "problem with HeatSource")
  | Some column =>
      if String.eqb (tf_mode tf) "heat_pump" then
        temp_low ← getitem data column;
        mret ([Fin (cht_temperature_high p)], temp_low)
      else if String.eqb (tf_mode tf) "chiller" then
        source_temp ← getitem data column;
        let temp_high :=
          if String.eqb (cht_heat_source p) "Air"
          then air_chiller_temp_high source_temp (cht_temperature_low p)
          else source_temp in
        mret (temp_high, [Fin (cht_temperature_low p)])
      else raise (UnboundLocalError "temp_high")
  end.

Definition cht_output_flow (tf : TransformerRow) : Flow :=
  {| variable_costs := Some (tf_variable_output_costs tf);
     emission_factor := Some (tf_variable_output_constraint_costs tf);
     investment := Some
       {| ep_costs := tf_periodical_costs tf;
          periodical_constraint_costs := Some (tf_periodical_constraint_costs tf);
          minimum := Fin (tf_min_investment_capacity tf);
          maximum := Fin (tf_max_investment_capacity tf);
          existing := tf_existing_capacity tf;
          nonconvex := None; offset := None |};
     flow_args := ∅ |}.

Definition abs_output_flow (tf : TransformerRow) : Flow :=
  {| variable_costs := Some (tf_variable_output_costs tf);
     emission_factor := Some (tf_variable_output_constraint_costs tf);
     investment := Some
       {| ep_costs := tf_periodical_costs tf;
          periodical_constraint_costs := None;
          minimum := Fin (tf_min_investment_capacity tf);
          maximum := Fin (tf_max_investment_capacity tf);
          existing := tf_existing_capacity tf;
          nonconvex := None; offset := None |};
     flow_args := ∅ |}.

(** [[x for p in range(0, periods)]] *)
Definition per_period (periods_ : Z) (x : Q) : profile :=
  Series (replicate (Z.to_nat periods_) (Fin x)).

Definition chp_fuel_flow (tf : TransformerRow) (periods_ : Z) : Flow :=
  let p := tf_chp tf in
  {| variable_costs := Some (tf_variable_input_costs tf);
     emission_factor := Some (tf_variable_input_constraint_costs tf);
     investment := None;
     flow_args :=
       <["H_L_FG_share_min" :=
           per_period periods_
             (chp_share_of_flue_gas_loss_at_min_heat_extraction p)]>
       {[ "H_L_FG_share_max" :=
            per_period periods_
              (chp_share_of_flue_gas_loss_at_max_heat_extraction p) ]} |}.

Definition chp_electrical_flow (tf : TransformerRow) (periods_ : Z) : Flow :=
  let p := tf_chp tf in
  {| variable_costs := Some (tf_variable_output_costs tf);
     emission_factor := Some (tf_variable_output_constraint_costs tf);
     investment := Some
       {| ep_costs := tf_periodical_costs tf;
          periodical_constraint_costs := Some (tf_periodical_constraint_costs tf);
          minimum := Fin (tf_min_investment_capacity tf);
          maximum := Fin (tf_max_investment_capacity tf);
          existing := tf_existing_capacity tf;
          nonconvex := None; offset := None |};
     flow_args :=
       <["Eta_el_min_woDH" := per_period periods_ (chp_el_eff_at_min_fuel_flow p)]>
       (<["Eta_el_max_woDH" := per_period periods_ (chp_el_eff_at_max_fuel_flow p)]>
        (<["P_min_woDH" :=
             per_period periods_
               (chp_min_electric_power_without_district_heating p)]>
         {[ "P_max_woDH" :=
              per_period periods_
                (chp_max_electric_power_without_district_heating p) ]})) |}.

Definition chp_heat_flow (tf : TransformerRow) (periods_ : Z) : Flow :=
  {| variable_costs := Some (tf_variable_output_costs_2 tf);
     emission_factor := Some (tf_variable_output_constraint_costs_2_chp tf);
     investment := None;
     flow_args :=
       {[ "Q_CW_min" :=
            per_period periods_ (chp_minimal_therm_condenser_load (tf_chp tf)) ]} |}.

(** [periods] is read from the 'energysystem' sheet of [nodes_data]. *)
Definition genericchp_transformer (tf : TransformerRow) (periods_ : Z)
  : M TransformersState unit :=
  fuel ← tf_bus (tf_input tf);
  electrical ← tf_bus (tf_output tf);
  heat ← tf_bus (tf_output2 tf);
  tf_append
    (NGenericCHP (tf_label tf)
       {[ bus_label fuel := chp_fuel_flow tf periods_ ]}
       {[ bus_label electrical := chp_electrical_flow tf periods_ ]}
       {[ bus_label heat := chp_heat_flow tf periods_ ]}
       (replicate (Z.to_nat periods_) (chp_power_loss_index (tf_chp tf)))
       (chp_back_pressure (tf_chp tf))).

Section TransformerBuilder.
Context `{Libraries}.

Definition compression_heat_transformer (tf : TransformerRow)
    (data : DataFrame) : M TransformersState unit :=
  match mode_suffix (tf_mode tf) with
  | None => raise (UnboundLocalError "temp")
  | Some temp =>
      let bus_key := tf_label tf +:+ temp +:+ "_bus" in
      tf_append (NBus (mkBus bus_key)) ;;
      tf_set_bus bus_key (mkBus bus_key) ;;
      match heat_source_of tf temp with
      | None => raise (SystemError (tf_label tf +:+ " Error in heat source attribute"))
      | Some (cmpr_heat_transformer_label, capacity) =>
          maximum_ ← lift_result capacity;
          source_bus ← tf_bus bus_key;
          tf_append (NSource cmpr_heat_transformer_label
                       {[ bus_label source_bus := heat_source_flow maximum_ ]}) ;;
          '(temp_high, temp_low) ← cht_temperatures tf data;
          let icing (x : Q) : option Q :=
            if String.eqb (tf_mode tf) "heat_pump" then Some x else None in
          cops_hp ← lift_result
            (calc_cops temp_high temp_low (cht_quality_grade (tf_cht tf))
               (icing (cht_temp_threshold_icing (tf_cht tf)))
               (icing (cht_factor_icing (tf_cht tf))) (tf_mode tf));
          in_1 ← tf_bus (tf_input tf);
          in_2 ← tf_bus bus_key;
          out ← tf_bus (tf_output tf);
          cf_1 ← tf_bus bus_key;
          heat_factors ← lift_result
            (list_comprehension
               (fun cop =>
                  match py_div (cop - 1) cop with
                  | Ok q => py_div q (tf_efficiency tf)
                  | Raise e => Raise e
                  end) cops_hp);
          cf_2 ← tf_bus (tf_input tf);
          input_factors ← lift_result
            (list_comprehension (fun cop => py_div 1 cop) cops_hp);
          create_transformer tf
            (<[bus_label in_2 := zero_cost_flow]>
               {[ bus_label in_1 := transformer_input_flow tf ]})
            {[ bus_label out := cht_output_flow tf ]}
            (<[bus_label cf_2 := Series (map Fin input_factors)]>
               {[ bus_label cf_1 := Series (map Fin heat_factors) ]})
      end
  end.

Definition absorption_heat_transformer (tf : TransformerRow)
    (data : DataFrame) : M TransformersState unit :=
  match mode_suffix (tf_mode tf) with
  | None => raise (UnboundLocalError "temp")
  | Some temp =>
      let p := tf_abs tf in
      let bus_label_ := tf_label tf +:+ temp +:+ "_bus" in
      let source_label := tf_label tf +:+ temp +:+ "_source" in
      tf_append (NBus (mkBus bus_label_)) ;;
      tf_set_bus bus_label_ (mkBus bus_label_) ;;
      source_bus ← tf_bus bus_label_;
      tf_append
        (NSource source_label
           {[ bus_label source_bus :=
                {| variable_costs := Some (tf_variable_input_costs tf);
                   emission_factor := None; investment := None;
                   flow_args := ∅ |} ]}) ;;
      temperature ← getitem data "temperature";
      t_cool ← lift_result
        (list_comprehension
           (fun t => py_int
              (xnum_add t (Fin (abs_recooling_temperature_difference p))))
           temperature);
      coefficients ← match char_para !! abs_name p with
                     | Some c => mret c
                     | None => raise IndexError
                     end;
      let ddt := calc_characteristic_temp (abs_high_temperature p) t_cool
                   (abs_chilling_temperature p)
                   (coef_a coefficients) (coef_e coefficients) in
      let q_dots_evap :=
        calc_heat_flux ddt (coef_s_E coefficients) (coef_r_E coefficients) in
      let q_dots_gen :=
        calc_heat_flux ddt (coef_s_G coefficients) (coef_r_G coefficients) in
      cops_abs ← lift_result
        (list_comprehension (fun '(Qgen, Qevap) => py_div Qevap Qgen)
           (zip q_dots_gen q_dots_evap));
      in_1 ← tf_bus (tf_input tf);
      in_2 ← tf_bus (tf_label tf +:+ temp +:+ "_bus");
      out ← tf_bus (tf_output tf);
      cf_1 ← tf_bus (tf_output tf);
      cf_2 ← tf_bus (tf_input tf);
      create_transformer tf
        (<[bus_label in_2 := zero_cost_flow]>
           {[ bus_label in_1 := transformer_input_flow tf ]})
        {[ bus_label out := abs_output_flow tf ]}
        (<[bus_label cf_2 :=
             Scalar (Fin (abs_electrical_input_conversion_factor p))]>
           {[ bus_label cf_1 := Series (map Fin cops_abs) ]})
  end.

(** The body of the loop of [Transformers.__init__]; the branches that
    only log a warning add nothing. *)
Definition transformers_row (periods_ : Z) (data : DataFrame)
    (t : TransformerRow) : M TransformersState unit :=
  if truthy (tf_active t) then
    if String.eqb (tf_transformer_type t) "GenericTransformer" then
      generic_transformer t
    else if String.eqb (tf_transformer_type t) "compression_heat_transformer" then
      compression_heat_transformer t data
    else if String.eqb (tf_transformer_type t) "ExtractionTurbineCHP" then
      mret tt
    else if String.eqb (tf_transformer_type t) "GenericCHP" then
      genericchp_transformer t periods_
    else if String.eqb (tf_transformer_type t) "OffsetTransformer" then
      mret tt
    else if String.eqb (tf_transformer_type t) "absorption_heat_transformer" then
      absorption_heat_transformer t data
    else mret tt
  else mret tt.

(** [Transformers(nodes_data, nodes, busd)]: the outcome, the shared
    list [nodes] and the shared dictionary [busd] afterwards. *)
Definition Transformers_init (rows : list TransformerRow) (periods_ : Z)
    (nodes : list Node) (busd : gmap string Bus) (data : DataFrame)
  : result unit * (list Node * gmap string Bus) :=
  match for_each rows (transformers_row periods_ data)
          {| nodes_transformer := []; transformers_busd := busd |} with
  | (Ok _, s) =>
      (Ok tt, (append_all nodes (nodes_transformer s), transformers_busd s))
  | (Raise e, s) => (Raise e, (nodes, transformers_busd s))
  end.

End TransformerBuilder.

(** ** Storage builder: class [Storages] *)

Record StoragesState : Type := mkStoragesState {
  storages_nodes : list Node;
  storages_busd : gmap string Bus
}.

Definition st_append (n : Node) : M StoragesState unit :=
  modify (fun s => {| storages_nodes := storages_nodes s ++ [n];
                      storages_busd := storages_busd s |}).

Definition st_bus (k : string) : M StoragesState Bus :=
  s ← get; getitem (storages_busd s) k.

Definition storage_input_flow (s : StorageRow) : Flow :=
  {| variable_costs := Some (s_variable_input_costs s);
     emission_factor := Some (s_variable_input_constraint_costs s);
     investment := None; flow_args := ∅ |}.

Definition storage_output_flow (s : StorageRow) : Flow :=
  {| variable_costs := Some (s_variable_output_costs s);
     emission_factor := Some (s_variable_output_constraint_costs s);
     investment := None; flow_args := ∅ |}.

Definition storage_investment_of (s : StorageRow) : Investment :=
  {| ep_costs := s_periodical_costs s;
     periodical_constraint_costs := Some (s_periodical_constraint_costs s);
     minimum := Fin (s_min_investment_capacity s);
     maximum := Fin (s_max_investment_capacity s);
     existing := s_existing_capacity s;
     nonconvex := Some (is_one (s_non_convex_investment s));
     offset := Some (s_fix_investment_costs s) |}.

Definition generic_storage (s : StorageRow) : M StoragesState unit :=
  input ← st_bus (s_bus s);
  output ← st_bus (s_bus s);
  lift_result (solph_Investment (storage_investment_of s)) ;;
  st_append
    (NGenericStorage (s_label s)
       {[ bus_label input := storage_input_flow s ]}
       {[ bus_label output := storage_output_flow s ]}
       {| min_storage_level := None; max_storage_level := None;
          loss_rate := Scalar (Fin (s_capacity_loss s));
          fixed_losses_relative := None; fixed_losses_absolute := None;
          inflow_conversion_factor := s_efficiency_inflow s;
          outflow_conversion_factor := s_efficiency_outflow s;
          invest_relation_input_capacity := s_input_capacity_ratio s;
          invest_relation_output_capacity := s_output_capacity_ratio s;
          storage_investment := storage_investment_of s |}).

Section StorageBuilder.
Context `{Libraries}.

Definition stratified_thermal_storage (s : StorageRow) (data : DataFrame)
  : M StoragesState unit :=
  temperature ← getitem data "temperature";
  let '(loss_rate_, fixed_losses_relative_, fixed_losses_absolute_) :=
    calculate_losses (s_u_value s) (s_diameter s) (s_temperature_high s)
                     (s_temperature_low s) temperature in
  input ← st_bus (s_bus s);
  output ← st_bus (s_bus s);
  lift_result (solph_Investment (storage_investment_of s)) ;;
  st_append
    (NGenericStorage (s_label s)
       {[ bus_label input := storage_input_flow s ]}
       {[ bus_label output := storage_output_flow s ]}
       {| min_storage_level := Some (s_capacity_min s);
          max_storage_level := Some (s_capacity_max s);
          loss_rate := loss_rate_;
          fixed_losses_relative := Some fixed_losses_relative_;
          fixed_losses_absolute := Some fixed_losses_absolute_;
          inflow_conversion_factor := s_efficiency_inflow s;
          outflow_conversion_factor := s_efficiency_outflow s;
          invest_relation_input_capacity := s_input_capacity_ratio s;
          invest_relation_output_capacity := s_output_capacity_ratio s;
          storage_investment := storage_investment_of s |}).

(** The body of the loop of [Storages.__init__]: two [if]s in a row. *)
Definition storages_row (data : DataFrame) (s : StorageRow)
  : M StoragesState unit :=
  if truthy (s_active s) then
    (if String.eqb (s_storage_type s) "Generic" then generic_storage s
     else mret tt) ;;
    (if String.eqb (s_storage_type s) "Stratified"
     then stratified_thermal_storage s data
     else mret tt)
  else mret tt.

(** [Storages(nodes_data, nodes, busd)] *)
Definition Storages_init (rows : list StorageRow) (nodes : list Node)
    (busd : gmap string Bus) (data : DataFrame) : result unit * list Node :=
  match for_each rows (storages_row data)
          {| storages_nodes := []; storages_busd := busd |} with
  | (Ok _, s) => (Ok tt, append_all nodes (storages_nodes s))
  | (Raise e, _) => (Raise e, nodes)
  end.

End StorageBuilder.

(** ** Link builder: class [Links] *)

(** [ep_costs] of a link, by its direction. *)
Definition link_ep_costs (link : LinkRow) : result Q :=
  if String.eqb (link_directed link) "directed" then
    Ok (link_periodical_costs link)
  else if String.eqb (link_directed link) "undirected" then
    Ok (link_periodical_costs link / 2)%Q
  else Raise (SystemError "Problem with periodical costs").

Definition link_investment (link : LinkRow) (ep_costs_ : Q) : Investment :=
  {| ep_costs := ep_costs_;
     periodical_constraint_costs := Some (link_periodical_constraint_costs link);
     minimum := Fin (link_min_investment_capacity link);
     maximum := Fin (link_max_investment_capacity link);
     existing := link_existing_capacity link;
     nonconvex := Some (is_one (link_non_convex_investment link));
     offset := Some (link_fix_investment_costs link) |}.

Definition link_output_flow (link : LinkRow) (ep_costs_ : Q) : Flow :=
  {| variable_costs := Some (link_variable_output_costs link);
     emission_factor := Some (link_variable_constraint_costs link);
     investment := Some (link_investment link ep_costs_);
     flow_args := ∅ |}.

(** [link['efficiency'] if link['(un)directed'] == 'undirected' else 0] *)
Definition link_reverse_factor (link : LinkRow) : Q :=
  if String.eqb (link_directed link) "undirected"
  then link_efficiency link else 0%Q.

(** The body of the loop of [Links.__init__]; the state is the shared
    list [nodes]. The two investments are built while the dictionary
    of the outputs is written, each behind the lookup of its bus. Later
    versions of the library assert in [solph.custom.Link] that a link
    has two inputs, two outputs and two conversion factors, which a
    link from a bus to itself has not; the assertion is not run here,
    and the statements on created links are on links between two
    different buses. *)
Definition links_row (busd : gmap string Bus) (link : LinkRow)
  : M (list Node) unit :=
  if truthy (link_active link) then
    ep_costs_ ← lift_result (link_ep_costs link);
    in_1 ← getitem busd (link_bus_1 link);
    in_2 ← getitem busd (link_bus_2 link);
    out_2 ← getitem busd (link_bus_2 link);
    lift_result (solph_Investment (link_investment link ep_costs_)) ;;
    out_1 ← getitem busd (link_bus_1 link);
    lift_result (solph_Investment (link_investment link ep_costs_)) ;;
    fwd_from ← getitem busd (link_bus_1 link);
    fwd_to ← getitem busd (link_bus_2 link);
    rev_from ← getitem busd (link_bus_2 link);
    rev_to ← getitem busd (link_bus_1 link);
    modify (fun nodes => nodes ++
      [NLink (link_label link)
         (<[bus_label in_2 := empty_flow]> {[ bus_label in_1 := empty_flow ]})
         (<[bus_label out_1 := link_output_flow link ep_costs_]>
            {[ bus_label out_2 := link_output_flow link ep_costs_ ]})
         (<[(bus_label rev_from, bus_label rev_to) := link_reverse_factor link]>
            {[ (bus_label fwd_from, bus_label fwd_to) := link_efficiency link ]})])
  else mret tt.

(** [Links(nodes_data, nodes, bus)]: the outcome and the shared list
    [nodes] afterwards. *)
Definition Links_init (rows : list LinkRow) (nodes : list Node)
    (bus : gmap string Bus) : result unit * list Node :=
  for_each rows (links_row bus) nodes.

(** ** Vocabulary of the properties *)

(** [k in args] *)
Definition has_key (k : string) (args : gmap string profile) : bool :=
  match args !! k with
  | Some _ => true
  | None => false
  end.

(** A flow has a fixed profile, or a pair of a minimum and a maximum
    profile, and not both. *)
Definition exactly_one_profile (args : gmap string profile) : bool :=
  xorb (has_key "fix" args) (has_key "min" args && has_key "max" args).

Definition fix_only (args : gmap string profile) : bool :=
  has_key "fix" args && negb (has_key "min" args) && negb (has_key "max" args).

Definition min_max_only (args : gmap string profile) : bool :=
  negb (has_key "fix" args) && has_key "min" args && has_key "max" args.

Definition max_only (args : gmap string profile) : bool :=
  negb (has_key "fix" args) && negb (has_key "min" args) && has_key "max" args.

Definition no_profile (args : gmap string profile) : bool :=
  negb (has_key "fix" args) && negb (has_key "min" args)
  && negb (has_key "max" args).

(** The flows of a source or of a sink. *)
Definition attachments (n : Node) : list Flow :=
  match n with
  | NSource _ outputs => (map_to_list outputs).*2
  | NSink _ inputs => (map_to_list inputs).*2
  | _ => []
  end.

(** Every flow of a source or a sink satisfies [p]. *)
Definition attachments_all (p : gmap string profile -> bool) (n : Node) : bool :=
  forallb (fun f => p (flow_args f)) (attachments n).

Definition is_bus_labelled (l : string) (n : Node) : bool :=
  match n with
  | NBus b => String.eqb (bus_label b) l
  | _ => false
  end.

(** The excess sink of the bus [l]: the label derived from [l], and a
    flow from that bus. *)
Definition is_excess_sink (l : string) (n : Node) : bool :=
  match n with
  | NSink l' inputs =>
      String.eqb l' (l +:+ "_excess") && bool_decide (is_Some (inputs !! l))
  | _ => false
  end.

Definition is_shortage_source (l : string) (n : Node) : bool :=
  match n with
  | NSource l' outputs =>
      String.eqb l' (l +:+ "_shortage") && bool_decide (is_Some (outputs !! l))
  | _ => false
  end.

(** The dictionary [buses] returns for a table. *)
Definition buses_busd (rows : list BusRow) : gmap string Bus :=
  fold_left (fun d b => if truthy (b_active b)
                        then <[b_label b := mkBus (b_label b)]> d else d)
            rows ∅.

(** ** Example tables *)

(** An active bus with an excess sink and no shortage source. *)
Definition example_bus (label : string) : BusRow :=
  {| b_label := label; b_active := 1; b_excess := 1; b_shortage := 0;
     b_excess_costs := 0; b_variable_excess_constraint_costs := 0;
     b_shortage_costs := 0; b_variable_shortage_constraint_costs := 0 |}.

(** [new] is [old] with nodes added at its end. *)
Definition only_appended (old new : list Node) : Prop :=
  exists created, new = old ++ created.

(** The columns of the weather data the constructor of [Sources]
    documents: 'dhi', 'dirhi', 'pressure', 'temperature', 'windspeed'
    and 'z0'. *)
Definition weather_columns : list string :=
  ["dhi"; "dirhi"; "pressure"; "temperature"; "windspeed"; "z0"].

Definition has_weather_columns (data : DataFrame) : bool :=
  forallb (fun c => match data !! c with Some _ => true | None => false end)
          weather_columns.

Definition is_source (n : Node) : bool :=
  match n with NSource _ _ => true | _ => false end.

Definition example_pv : PVParams :=
  {| pv_azimuth := 180; pv_surface_tilt := 35; pv_modul_model := "module";
     pv_inverter_model := "inverter"; pv_albedo := 0.2;
     pv_latitude := 52; pv_longitude := 7.6 |}.

Definition example_wind : WindParams :=
  {| wind_turbine_model := "E-126/4200"; wind_hub_height := 135 |}.

Definition example_solar_heat : SolarHeatParams :=
  {| sh_latitude := 52; sh_longitude := 7.6; sh_surface_tilt := 10;
     sh_azimuth := 180; sh_cleanliness := 0.9; sh_eta_0 := 0.73;
     sh_a1 := 1.7; sh_a2 := 0.016; sh_c1 := 0.4; sh_c2 := 0.001;
     sh_temperature_inlet := 40; sh_temperature_difference := 15;
     sh_conversion_factor := 1; sh_peripheral_losses := 0.05;
     sh_electric_consumption := 0.02 |}.

(** A source row with the given label, technology and fixed flag, on
    the bus "B"; a solar thermal row takes its electricity from "E". *)
Definition example_source (label technology : string) (fixed : Z) : SourceRow :=
  {| so_label := label; so_active := 1; so_fixed := fixed;
     so_output := "B"; so_input := "E"; so_technology := technology;
     so_variable_costs := 0; so_variable_constraint_costs := 0;
     so_existing_capacity := 0; so_min_investment_capacity := 0;
     so_max_investment_capacity := 100; so_periodical_costs := 10;
     so_periodical_constraint_costs := 0; so_non_convex_investment := 0;
     so_fix_investment_costs := 0;
     so_pv := example_pv; so_wind := example_wind;
     so_solar_heat := example_solar_heat |}.

(** Two hours of weather. *)
Definition example_weather : DataFrame :=
  <["z0" := [Fin 0.15; Fin 0.15]]>
  (<["windspeed" := [Fin 4; Fin 6]]>
   (<["temperature" := [Fin 10; Fin 12]]>
    (<["pressure" := [Fin 101325; Fin 101300]]>
     (<["dirhi" := [Fin 1500; Fin 200]]>
      {[ "dhi" := [Fin 500; Fin 100] ]})))).

Definition example_scenario : Scenario :=
  {| time_series :=
       <["ts.max" := [Fin 1; Fin 1]]>
       (<["ts.min" := [Fin 0; Fin 0]]> {[ "ts.fix" := [Fin 0.5; Fin 0.7] ]});
     temporal_resolution := "h"; periods := 2; start_year := 2012 |}.

Definition example_busd : gmap string Bus :=
  <["E" := mkBus "E"]> {[ "B" := mkBus "B" ]}.

(** Stand-ins for the libraries, for running the builders on the
    example tables: a photovoltaic feed-in with a negative, a missing
    and a too large value, and a collector whose heat is the irradiance
    it receives. *)
#[export] Instance example_libraries : Libraries :=
  {| pv_feedin := fun _ _ => [Fin (-0.1); NaN; Fin 1.2; Fin 0.5];
     wind_feedin := fun _ windspeed _ _ _ => windspeed;
     flat_plate_precalc := fun _ ghi _ _ => (ghi, ghi);
     csp_precalc := fun _ _ _ dirhi => (dirhi, dirhi);
     heat_building_profile := fun _ _ _ temperature _ _ => temperature;
     elec_slp_profile := fun _ name _ => {[ name := [Fin 0.3; Fin 0.7] ]};
     loadcurve := fun nb_occ _ _ _ => [inject_Z nb_occ * 100; 250]%Q;
     calc_cops := fun temp_high _ _ _ _ _ => Ok (map (fun _ => 3%Q) temp_high);
     calculate_losses := fun _ _ _ _ _ =>
       (Scalar (Fin 0.001), Scalar (Fin 0), Scalar (Fin 0));
     calc_characteristic_temp := fun _ t_cool _ _ _ => map inject_Z t_cool;
     calc_heat_flux := fun ddts _ _ => ddts;
     char_para := ∅ |}.

(** What the preparation of the photovoltaic feed-in does to one value,
    in the words of the comments of [pv_source]: a negative value
    becomes 0, a value greater than 1 becomes 1, a missing value becomes
    0. *)
Definition clip_value (x : xnum) : xnum :=
  match x with
  | NaN => Fin 0
  | _ => if xnum_ltb x 0 then Fin 0 else if xnum_gtb x 1 then Fin 1 else x
  end.

(** The series of a flow, whichever of 'fix' and 'max' carries it. *)
Definition flow_series (args : gmap string profile) : option (list xnum) :=
  match args !! "fix" with
  | Some (Series l) => Some l
  | _ => match args !! "max" with
         | Some (Series l) => Some l
         | _ => None
         end
  end.

(** The state in which the constructor of [Sources] starts on the
    example tables. *)
Definition example_sources_state : SourcesState :=
  {| nodes_sources := []; sources_busd := example_busd;
     sources_data := example_weather |}.

(** A link between the example buses "B" and "E". *)
Definition example_link (directed : string) : LinkRow :=
  {| link_label := "L"; link_active := 1; link_directed := directed;
     link_bus_1 := "B"; link_bus_2 := "E"; link_efficiency := 0.9;
     link_variable_output_costs := 0; link_variable_constraint_costs := 0;
     link_existing_capacity := 0; link_min_investment_capacity := 0;
     link_max_investment_capacity := 100; link_periodical_costs := 10;
     link_periodical_constraint_costs := 0; link_non_convex_investment := 0;
     link_fix_investment_costs := 0 |}.



(** A stochastic sink with the given number of occupants, on bus "B". *)
Definition example_richardson (occupants fixed : Z) : SinkRow :=
  {| de_label := "D"; de_active := 1; de_fixed := fixed; de_input := "B";
     de_load_profile := "richardson"; de_nominal_value := 0;
     de_annual_demand := 3000; de_occupants := occupants;
     de_building_class := 0; de_wind_class := 0 |}.

Definition example_sinks_state : SinksState :=
  {| nodes_sinks := []; sinks_busd := example_busd |}.

(** What the loop over [temp_high] does to one value: a value equal to
    the low temperature becomes the low temperature plus 0.1, any other
    value stays. *)
Definition replace_equal (temp_low_value : Q) (value : xnum) : xnum :=
  if xnum_eqb value temp_low_value then Fin (add_tenth temp_low_value)
  else value.

Definition example_cht (heat_source : string) : CHTParams :=
  {| cht_heat_source := heat_source; cht_temperature_high := 40;
     cht_temperature_low := 10; cht_quality_grade := 0.4;
     cht_area := 100; cht_length_of_the_geoth_probe := 100;
     cht_heat_extraction := 0.05; cht_min_borehole_area := 36;
     cht_temp_threshold_icing := 3; cht_factor_icing := 0.8 |}.

Definition example_chp : CHPParams :=
  {| chp_share_of_flue_gas_loss_at_max_heat_extraction := 0.19;
     chp_share_of_flue_gas_loss_at_min_heat_extraction := 0.18;
     chp_max_electric_power_without_district_heating := 200;
     chp_min_electric_power_without_district_heating := 80;
     chp_el_eff_at_max_fuel_flow := 0.53;
     chp_el_eff_at_min_fuel_flow := 0.43;
     chp_minimal_therm_condenser_load := 10;
     chp_power_loss_index := 0.19; chp_back_pressure := 0 |}.

Definition example_abs : AbsCHParams :=
  {| abs_name := "Kuehn"; abs_high_temperature := 85;
     abs_chilling_temperature := 15;
     abs_electrical_input_conversion_factor := 0.05;
     abs_recooling_temperature_difference := 6 |}.

(** A compression heat transformer from bus "E" to bus "B". *)
Definition example_transformer (mode heat_source : string) : TransformerRow :=
  {| tf_label := "T"; tf_active := 1;
     tf_transformer_type := "compression_heat_transformer";
     tf_mode := mode; tf_input := "E"; tf_output := "B"; tf_output2 := "None";
     tf_efficiency := 1; tf_efficiency2 := 0;
     tf_variable_input_costs := 0; tf_variable_output_costs := 0;
     tf_variable_output_costs_2 := 0;
     tf_variable_input_constraint_costs := 0;
     tf_variable_output_constraint_costs := 0;
     tf_variable_output_constraint_costs_2 := 0;
     tf_variable_output_constraint_costs_2_chp := 0;
     tf_existing_capacity := 0; tf_min_investment_capacity := 0;
     tf_max_investment_capacity := 50; tf_periodical_costs := 20;
     tf_periodical_constraint_costs := 0; tf_non_convex_investment := 0;
     tf_fix_investment_costs := 0;
     tf_cht := example_cht heat_source; tf_chp := example_chp;
     tf_abs := example_abs |}.

Definition example_transformers_state : TransformersState :=
  {| nodes_transformer := []; transformers_busd := example_busd |}.

(** An hour colder than the low temperature of the example chiller and
    an hour exactly at it. *)
Definition example_cold_weather : DataFrame :=
  {[ "temperature" := [Fin 5; Fin 10] ]}.

(** The profile arguments of a source, by variant and fixed flag: a
    commodity source has a minimum and a maximum; the others have a
    fixed profile for the flag 1 and a minimum and a maximum for 0. *)
Definition source_profile_shape (so : SourceRow)
  : gmap string profile -> bool :=
  if String.eqb (so_technology so) "other" then min_max_only
  else if so_fixed so =? 1 then fix_only
  else min_max_only.

(** The profile arguments of a sink, by variant and fixed flag: none
    for an unfixed sink; for a time-series sink a fixed profile or a
    minimum and a maximum; for the others a fixed profile or a maximum
    alone. *)
Definition sink_profile_shape (de : SinkRow) : gmap string profile -> bool :=
  if String.eqb (de_load_profile de) "x" then no_profile
  else if String.eqb (de_load_profile de) "timeseries" then
    if de_fixed de =? 1 then fix_only else min_max_only
  else if de_fixed de =? 1 then fix_only
  else max_only.

(** No fixed profile together with a minimum or a maximum. *)
Definition not_both (args : gmap string profile) : bool :=
  negb (has_key "fix" args && (has_key "min" args || has_key "max" args)).

(** A sink with the given load profile and fixed flag, on bus "B". *)
Definition example_sink (load_profile : string) (fixed : Z) : SinkRow :=
  {| de_label := "D"; de_active := 1; de_fixed := fixed; de_input := "B";
     de_load_profile := load_profile; de_nominal_value := 50;
     de_annual_demand := 3000; de_occupants := 2;
     de_building_class := 0; de_wind_class := 0 |}.

(** Every series among the keyword arguments of a flow has [n] values. *)
Definition series_have_length (n : nat) (f : Flow) : Prop :=
  map_Forall (fun _ p => exists l, p = Series l /\ length l = n) (flow_args f).

(** A generic transformer from "E" to "B" with the second output
    [output2]. *)
Definition example_generic (output2 : string) (efficiency : Q)
  : TransformerRow :=
  {| tf_label := "G"; tf_active := 1;
     tf_transformer_type := "GenericTransformer";
     tf_mode := ""; tf_input := "E"; tf_output := "B"; tf_output2 := output2;
     tf_efficiency := efficiency; tf_efficiency2 := 0.5;
     tf_variable_input_costs := 0; tf_variable_output_costs := 0;
     tf_variable_output_costs_2 := 0;
     tf_variable_input_constraint_costs := 0;
     tf_variable_output_constraint_costs := 0;
     tf_variable_output_constraint_costs_2 := 0;
     tf_variable_output_constraint_costs_2_chp := 0;
     tf_existing_capacity := 10; tf_min_investment_capacity := 0;
     tf_max_investment_capacity := 50; tf_periodical_costs := 20;
     tf_periodical_constraint_costs := 0; tf_non_convex_investment := 0;
     tf_fix_investment_costs := 0;
     tf_cht := example_cht "Air"; tf_chp := example_chp;
     tf_abs := example_abs |}.

(** The example buses and a bus "H" for heat. *)
Definition example_busd_heat : gmap string Bus :=
  <["H" := mkBus "H"]> example_busd.

Definition example_transformers_state_heat : TransformersState :=
  {| nodes_transformer := []; transformers_busd := example_busd_heat |}.

(** A storage on the example bus "B". *)
Definition example_storage (storage_type : string) : StorageRow :=
  {| s_label := "S"; s_active := 1; s_storage_type := storage_type;
     s_bus := "B"; s_existing_capacity := 0; s_min_investment_capacity := 0;
     s_max_investment_capacity := 100; s_periodical_costs := 5;
     s_periodical_constraint_costs := 0; s_non_convex_investment := 0;
     s_fix_investment_costs := 0; s_input_capacity_ratio := 0.2;
     s_output_capacity_ratio := 0.2; s_capacity_loss := 0.01;
     s_efficiency_inflow := 1; s_efficiency_outflow := 0.98;
     s_capacity_min := 0.1; s_capacity_max := 1;
     s_variable_input_costs := 0; s_variable_output_costs := 0;
     s_variable_input_constraint_costs := 0;
     s_variable_output_constraint_costs := 0;
     s_diameter := 2; s_temperature_high := 95; s_temperature_low := 60;
     s_u_value := 0.04 |}.

Definition example_storages_state : StoragesState :=
  {| storages_nodes := []; storages_busd := example_busd |}.

(** The example transformer with another transformer type. *)
Definition example_typed_transformer (transformer_type : string)
  : TransformerRow :=
  {| tf_label := "T"; tf_active := 1;
     tf_transformer_type := transformer_type;
     tf_mode := "chiller"; tf_input := "E"; tf_output := "B";
     tf_output2 := "None"; tf_efficiency := 1; tf_efficiency2 := 0;
     tf_variable_input_costs := 0; tf_variable_output_costs := 0;
     tf_variable_output_costs_2 := 0;
     tf_variable_input_constraint_costs := 0;
     tf_variable_output_constraint_costs := 0;
     tf_variable_output_constraint_costs_2 := 0;
     tf_variable_output_constraint_costs_2_chp := 0;
     tf_existing_capacity := 0; tf_min_investment_capacity := 0;
     tf_max_investment_capacity := 50; tf_periodical_costs := 20;
     tf_periodical_constraint_costs := 0; tf_non_convex_investment := 0;
     tf_fix_investment_costs := 0;
     tf_cht := example_cht "Air"; tf_chp := example_chp;
     tf_abs := example_abs |}.

(** The example scenario with a resolution of a quarter of an hour. *)
Definition example_scenario_quarter_hour : Scenario :=
  {| time_series := time_series example_scenario;
     temporal_resolution := "15min"; periods := 2; start_year := 2012 |}.

(** ** A scenario of buses, commodity sources and unfixed sinks *)

(** An active row of the bus table has the label [l]. *)
Definition is_active_bus (bus_rows : list BusRow) (l : string) : bool :=
  existsb (fun b => truthy (b_active b) && String.eqb (b_label b) l) bus_rows.

(** The node of a commodity source on an existing bus. *)
Definition commodity_node (so : SourceRow) : Node :=
  NSource (so_label so)
    {[ so_output so :=
         source_flow so
           (<["max" := Scalar (Fin 1)]> {[ "min" := Scalar (Fin 0) ]}) ]}.

(** The node of an unfixed sink on an existing bus. *)
Definition unfixed_node (de : SinkRow) : Node :=
  NSink (de_label de) {[ de_input de := sink_flow (unfixed_sink_args de) ]}.

(** The row is inactive, or a commodity source on an active bus with an
    investment that [solph.Investment] accepts. *)
Definition commodity_on_bus (bus_rows : list BusRow) (so : SourceRow) : bool :=
  negb (truthy (so_active so))
  || (String.eqb (so_technology so) "other"
      && is_active_bus bus_rows (so_output so)
      && investment_accepted (source_investment so)).

(** The row is inactive, or an unfixed sink on an active bus. *)
Definition unfixed_on_bus (bus_rows : list BusRow) (de : SinkRow) : bool :=
  negb (truthy (de_active de))
  || (String.eqb (de_load_profile de) "x"
      && is_active_bus bus_rows (de_input de)).

(** ** States before and after a method *)

(** Whatever the method does and however it ends, the state afterwards
    is related by [R] to the state before. *)
Definition keeps {S A} (R : S -> S -> Prop) (m : M S A) : Prop :=
  forall s, R s (m s).2.

(** The dictionary [d'] has every key of [d]. *)
Definition has_keys_of (d d' : gmap string Bus) : Prop :=
  forall k, is_Some (d !! k) -> is_Some (d' !! k).

(** ** Storage rows that differ in the bounds of the storage level *)

(** The row [s] with other entries in 'capacity min' and 'capacity max'. *)
Definition with_level_bounds (s : StorageRow) (capacity_min capacity_max : Q)
  : StorageRow :=
  {| s_label := s_label s; s_active := s_active s;
     s_storage_type := s_storage_type s; s_bus := s_bus s;
     s_existing_capacity := s_existing_capacity s;
     s_min_investment_capacity := s_min_investment_capacity s;
     s_max_investment_capacity := s_max_investment_capacity s;
     s_periodical_costs := s_periodical_costs s;
     s_periodical_constraint_costs := s_periodical_constraint_costs s;
     s_non_convex_investment := s_non_convex_investment s;
     s_fix_investment_costs := s_fix_investment_costs s;
     s_input_capacity_ratio := s_input_capacity_ratio s;
     s_output_capacity_ratio := s_output_capacity_ratio s;
     s_capacity_loss := s_capacity_loss s;
     s_efficiency_inflow := s_efficiency_inflow s;
     s_efficiency_outflow := s_efficiency_outflow s;
     s_capacity_min := capacity_min; s_capacity_max := capacity_max;
     s_variable_input_costs := s_variable_input_costs s;
     s_variable_output_costs := s_variable_output_costs s;
     s_variable_input_constraint_costs := s_variable_input_constraint_costs s;
     s_variable_output_constraint_costs :=
       s_variable_output_constraint_costs s;
     s_diameter := s_diameter s;
     s_temperature_high := s_temperature_high s;
     s_temperature_low := s_temperature_low s;
     s_u_value := s_u_value s |}.

(** The bounds of the storage level that a storage node was given. *)
Definition level_bounds (n : Node) : option (option Q * option Q) :=
  match n with
  | NGenericStorage _ _ _ args =>
      Some (min_storage_level args, max_storage_level args)
  | _ => None
  end.

(** A value that is a number, neither an infinity nor missing. *)
Definition is_finite (x : xnum) : bool :=
  match x with
  | Fin _ => true
  | _ => false
  end.

(** ** Rows with an investment that [solph.Investment] refuses *)

(** A nonconvex link with an existing capacity. *)
Definition example_nonconvex_link : LinkRow :=
  {| link_label := "L"; link_active := 1; link_directed := "directed";
     link_bus_1 := "B"; link_bus_2 := "E"; link_efficiency := 0.9;
     link_variable_output_costs := 0; link_variable_constraint_costs := 0;
     link_existing_capacity := 5; link_min_investment_capacity := 0;
     link_max_investment_capacity := 100; link_periodical_costs := 10;
     link_periodical_constraint_costs := 0; link_non_convex_investment := 1;
     link_fix_investment_costs := 0 |}.

(** A commodity source with fix investment costs and no nonconvex
    investment. *)
Definition example_fix_costs_source : SourceRow :=
  {| so_label := "grid"; so_active := 1; so_fixed := 0;
     so_output := "B"; so_input := "E"; so_technology := "other";
     so_variable_costs := 0; so_variable_constraint_costs := 0;
     so_existing_capacity := 0; so_min_investment_capacity := 0;
     so_max_investment_capacity := 100; so_periodical_costs := 10;
     so_periodical_constraint_costs := 0; so_non_convex_investment := 0;
     so_fix_investment_costs := 5;
     so_pv := example_pv; so_wind := example_wind;
     so_solar_heat := example_solar_heat |}.

(** * Properties *)

(** ** The monad *)

Ltac run_monad :=
  cbv [mbind M_bind mret M_ret raise get modify getitem lift_result]; simpl.

Ltac reduce_state :=
  cbv beta iota zeta delta
    [nodes_sources sources_busd sources_data nodes_sinks sinks_busd
     nodes_transformer transformers_busd storages_nodes storages_busd
     bs_nodes bs_busd].

Ltac step_lookups :=
  reduce_state;
  repeat (first [ rewrite lookup_insert_eq
                | rewrite lookup_insert_ne by done
                | match goal with
                  | H : _ !! _ = Some _ |- _ => rewrite H
                  end ]; reduce_state).

Ltac unfold_sources :=
  cbv [pv_source windpower_source timeseries_source solar_heat_source
       commodity_source create_source computed_args solar_heat_args
       collectors_heat so_add_ghi so_attribute so_column so_set_column
       so_set_bus so_append so_bus].

Lemma so_select_cases (columns : list string) (s : SourcesState) :
  so_select columns s = (Ok tt, s)
  \/ exists e, so_select columns s = (Raise e, s).
Proof.
  unfold so_select.
  cbv [mbind M_bind mret M_ret raise get].
  repeat case_bool_decide; eauto.
Qed.

Lemma so_select_present (columns : list string) (s : SourcesState) :
  forallb (fun c => bool_decide (is_Some (sources_data s !! c))) columns
  = true ->
  so_select columns s = (Ok tt, s).
Proof.
  intros Hall. unfold so_select.
  cbv [mbind M_bind mret M_ret raise get].
  rewrite bool_decide_eq_true_2; [done|].
  induction columns as [|c l IH]; [done|].
  simpl in Hall. apply andb_prop in Hall as [Hc Hl].
  rewrite filter_cons. rewrite Hc. simpl. by apply IH.
Qed.

Ltac run_paths :=
  repeat (reduce_state; simpl;
          match goal with
          | |- context [so_select ?c ?s] =>
              destruct (so_select_cases c s) as [-> | [? ->]]
          | |- context [solph_Investment ?i] =>
              destruct (solph_Investment i) eqn:?
          | |- context [match ?d !! ?k with _ => _ end] =>
              destruct (d !! k) eqn:?
          | |- context [match ?x with Some _ => _ | None => _ end] =>
              destruct x eqn:?
          | |- context [match lift_result ?r with _ => _ end] =>
              destruct r eqn:?
          | |- context [if ?b then _ else _] => destruct b eqn:?
          end).

Lemma bind_unfold {S A B} (m : M S A) (f : A -> M S B) (s : S) :
  (m ≫= f) s = match m s with
               | (Ok a, s') => f a s'
               | (Raise e, s') => (Raise e, s')
               end.
Proof. reflexivity. Qed.

Lemma bind_ok {S A B} (m : M S A) (f : A -> M S B) (s s1 : S) (a : A) :
  m s = (Ok a, s1) -> (m ≫= f) s = f a s1.
Proof. intros Hm. rewrite bind_unfold, Hm. reflexivity. Qed.

Lemma bind_raise {S A B} (m : M S A) (f : A -> M S B) (s s1 : S) (e : exn) :
  m s = (Raise e, s1) -> (m ≫= f) s = (Raise e, s1).
Proof. intros Hm. rewrite bind_unfold, Hm. reflexivity. Qed.

Lemma for_each_app {S A} (l1 l2 : list A) (body : A -> M S unit) (s : S) :
  for_each (l1 ++ l2) body s =
  match for_each l1 body s with
  | (Ok _, s1) => for_each l2 body s1
  | (Raise e, s1) => (Raise e, s1)
  end.
Proof.
  revert s. induction l1 as [|x l1 IH]; intros s; simpl.
  - reflexivity.
  - rewrite !bind_unfold. destruct (body x s) as [[[]|e] s1]; [apply IH | reflexivity].
Qed.

Lemma append_all_app (nodes created : list Node) :
  append_all nodes created = nodes ++ created.
Proof.
  unfold append_all. revert nodes.
  induction created as [|n created IH]; intros nodes; simpl.
  - by rewrite app_nil_r.
  - rewrite IH, <- app_assoc. reflexivity.
Qed.

(** ** Bus registry *)

Lemma buses_row_run (b : BusRow) (s : BusesState) :
  buses_row b s =
  (Ok tt,
   {| bs_nodes := bs_nodes s ++ buses_row_nodes b;
      bs_busd := if truthy (b_active b)
                 then <[b_label b := mkBus (b_label b)]> (bs_busd s)
                 else bs_busd s |}).
Proof.
  unfold buses_row, buses_row_nodes.
  destruct s as [nodes busd]; simpl.
  destruct (truthy (b_active b)); [|by rewrite app_nil_r].
  destruct (truthy (b_excess b)), (truthy (b_shortage b));
    cbv [bs_append bs_setitem bs_getitem]; run_monad;
    repeat (rewrite lookup_insert_eq; simpl);
    rewrite <- ?app_assoc; reflexivity.
Qed.

Lemma for_each_buses_row (rows : list BusRow) (s : BusesState) :
  for_each rows buses_row s =
  (Ok tt,
   {| bs_nodes := bs_nodes s ++ concat (map buses_row_nodes rows);
      bs_busd := fold_left
                   (fun d b => if truthy (b_active b)
                               then <[b_label b := mkBus (b_label b)]> d else d)
                   rows (bs_busd s) |}).
Proof.
  revert s. induction rows as [|b rows IH]; intros s; simpl.
  - destruct s; simpl. by rewrite app_nil_r.
  - rewrite (bind_ok _ _ _ _ _ (buses_row_run b s)), IH; simpl.
    by rewrite <- app_assoc.
Qed.

(** C2. [buses] never fails and adds to [nodes], in the order of the
    table, the nodes of each row. An active row gives exactly one bus,
    which carries the label of the row and is entered in the dictionary;
    its excess sink '<label>_excess', fed from that bus, is there exactly
    when the excess flag is set, and its shortage source
    '<label>_shortage', feeding that bus, exactly when the shortage flag
    is set. An inactive row gives nothing. *)
Theorem buses_creates_per_row (rows : list BusRow) (nodes : list Node) :
  buses rows nodes =
    (Ok tt, {| bs_nodes := nodes ++ concat (map buses_row_nodes rows);
               bs_busd := buses_busd rows |})
  /\ forall b : BusRow,
       if truthy (b_active b) then
         List.filter is_bus (buses_row_nodes b) = [NBus (mkBus (b_label b))]
         /\ (forall s, bs_busd (buses_row b s).2 !! b_label b
                       = Some (mkBus (b_label b)))
         /\ length (List.filter (is_excess_sink (b_label b)) (buses_row_nodes b))
            = Nat.b2n (truthy (b_excess b))
         /\ length (List.filter (is_shortage_source (b_label b)) (buses_row_nodes b))
            = Nat.b2n (truthy (b_shortage b))
         /\ length (buses_row_nodes b)
            = (1 + Nat.b2n (truthy (b_excess b))
               + Nat.b2n (truthy (b_shortage b)))%nat
       else
         buses_row_nodes b = []
         /\ forall s, (buses_row b s).2 = s.
Proof.
  split.
  - unfold buses. rewrite for_each_buses_row. reflexivity.
  - intros b.
    unfold buses_row_nodes.
    destruct (truthy (b_active b)) eqn:Hact.
    + split; [|split].
      * destruct (truthy (b_excess b)), (truthy (b_shortage b)); reflexivity.
      * intros s. rewrite buses_row_run, Hact. simpl. apply lookup_insert_eq.
      * destruct (truthy (b_excess b)), (truthy (b_shortage b)); simpl;
          rewrite ?String.eqb_refl, ?lookup_singleton_eq; simpl;
          repeat split; reflexivity.
    + split; [reflexivity|].
      intros s. rewrite buses_row_run. unfold buses_row_nodes.
      rewrite Hact. destruct s; simpl. by rewrite app_nil_r.
Qed.

(** C8, as stated, fails: a table with two active rows of the same label
    is built without an error, and both buses are in the node list. *)
Lemma buses_duplicate_label_accepted :
  buses [example_bus "B"; example_bus "B"] [] =
    (Ok tt,
     {| bs_nodes :=
          [NBus (mkBus "B");
           NSink "B_excess" {[ "B" := excess_flow (example_bus "B") ]};
           NBus (mkBus "B");
           NSink "B_excess" {[ "B" := excess_flow (example_bus "B") ]}];
        bs_busd := {[ "B" := mkBus "B" ]} |}).
Proof. vm_compute. reflexivity. Qed.

(** C8, amended. A row whose label is already in the dictionary raises
    no error: the row adds a further bus with that label to the node
    list, and the entry of the dictionary is overwritten with the new
    bus. *)
Theorem buses_row_label_collision (b : BusRow) (s : BusesState) (old : Bus) :
  truthy (b_active b) = true ->
  bs_busd s !! b_label b = Some old ->
  exists rest,
    buses_row b s =
      (Ok tt,
       {| bs_nodes := bs_nodes s ++ NBus (mkBus (b_label b)) :: rest;
          bs_busd := <[b_label b := mkBus (b_label b)]> (bs_busd s) |}).
Proof.
  intros Hact _. rewrite buses_row_run. unfold buses_row_nodes.
  rewrite Hact. simpl. eauto.
Qed.

Lemma buses_row_label_collision_witness :
  exists rest,
    buses_row (example_bus "B")
      {| bs_nodes := [NBus (mkBus "B")]; bs_busd := {[ "B" := mkBus "B" ]} |} =
      (Ok tt,
       {| bs_nodes := [NBus (mkBus "B")] ++ NBus (mkBus "B") :: rest;
          bs_busd := <["B" := mkBus "B"]> {[ "B" := mkBus "B" ]} |}).
Proof.
  exact (buses_row_label_collision (example_bus "B")
           {| bs_nodes := [NBus (mkBus "B")]; bs_busd := {[ "B" := mkBus "B" ]} |}
           (mkBus "B") eq_refl eq_refl).
Defined.

(** ** The shared node list only grows *)

Lemma only_appended_refl (l : list Node) : only_appended l l.
Proof. exists []. by rewrite app_nil_r. Qed.

Lemma only_appended_trans (l1 l2 l3 : list Node) :
  only_appended l1 l2 -> only_appended l2 l3 -> only_appended l1 l3.
Proof.
  intros [c1 ->] [c2 ->]. exists (c1 ++ c2). by rewrite app_assoc.
Qed.

Lemma only_appended_lookup (old new : list Node) (i : nat) (n : Node) :
  only_appended old new -> old !! i = Some n -> new !! i = Some n.
Proof. intros [created ->] Hi. by apply lookup_app_l_Some. Qed.

Lemma links_row_only_appends (busd : gmap string Bus) (link : LinkRow)
    (nodes : list Node) :
  only_appended nodes (links_row busd link nodes).2.
Proof.
  unfold links_row.
  destruct (truthy (link_active link)); [|apply only_appended_refl].
  run_monad.
  destruct (link_ep_costs link); simpl; [|apply only_appended_refl].
  destruct (busd !! link_bus_1 link); simpl; [|apply only_appended_refl].
  destruct (busd !! link_bus_2 link); simpl; [|apply only_appended_refl].
  destruct (solph_Investment _); simpl; [|apply only_appended_refl].
  eexists. reflexivity.
Qed.

Lemma for_each_only_appends {A} (body : A -> M (list Node) unit) (l : list A) :
  (forall x nodes, only_appended nodes (body x nodes).2) ->
  forall nodes, only_appended nodes (for_each l body nodes).2.
Proof.
  intros Hbody. induction l as [|x l IH]; intros nodes; simpl.
  - apply only_appended_refl.
  - rewrite bind_unfold. specialize (Hbody x nodes).
    destruct (body x nodes) as [[[]|e] nodes1]; simpl in *.
    + eapply only_appended_trans; [exact Hbody | apply IH].
    + exact Hbody.
Qed.

Section NodeList.
Context `{Libraries}.

(** C10. Each of the six builders leaves the list [nodes] it is given as
    a prefix of the list afterwards, whether it returns or raises: what
    was in the list stays, at its position, and what the builder creates
    comes behind it. *)
Theorem builders_only_append :
  (forall rows nodes,
     only_appended nodes (bs_nodes (buses rows nodes).2))
  /\ (forall rows nodes busd filepath data,
        only_appended nodes (Sources_init rows nodes busd filepath data).2)
  /\ (forall rows busd nodes filepath data,
        only_appended nodes (Sinks_init rows busd nodes filepath data).2)
  /\ (forall rows periods_ nodes busd data,
        only_appended nodes
          (Transformers_init rows periods_ nodes busd data).2.1)
  /\ (forall rows nodes busd data,
        only_appended nodes (Storages_init rows nodes busd data).2)
  /\ (forall rows nodes bus,
        only_appended nodes (Links_init rows nodes bus).2).
Proof.
  repeat split.
  - intros rows nodes. unfold buses. rewrite for_each_buses_row. simpl.
    eexists. reflexivity.
  - intros. unfold Sources_init.
    destruct (for_each _ _ _) as [[[]|e] s]; simpl;
      [rewrite append_all_app; eexists; reflexivity | apply only_appended_refl].
  - intros. unfold Sinks_init.
    destruct (for_each _ _ _) as [[[]|e] s]; simpl;
      [rewrite append_all_app; eexists; reflexivity | apply only_appended_refl].
  - intros. unfold Transformers_init.
    destruct (for_each _ _ _) as [[[]|e] s]; simpl;
      [rewrite append_all_app; eexists; reflexivity | apply only_appended_refl].
  - intros. unfold Storages_init.
    destruct (for_each _ _ _) as [[[]|e] s]; simpl;
      [rewrite append_all_app; eexists; reflexivity | apply only_appended_refl].
  - intros. unfold Links_init. apply for_each_only_appends.
    intros x l. apply links_row_only_appends.
Qed.

End NodeList.

(** ** Source builder *)

Section SourceProperties.
Context `{Libraries}.

(** C9. The condition of the last branch of the dispatch is true for
    every technology, so an active row whose technology is none of
    'other', 'photovoltaic', 'windpower' and 'timeseries' is handed to
    [solar_heat_source]. *)
Theorem sources_dispatch_falls_to_solar_heat (filepath : Scenario)
    (so : SourceRow) :
  truthy (so_active so) = true ->
  so_technology so <> "other" ->
  so_technology so <> "photovoltaic" ->
  so_technology so <> "windpower" ->
  so_technology so <> "timeseries" ->
  sources_row filepath so = solar_heat_source so
  /\ forall technology : string,
       String.eqb technology "solar_thermal_flat_plate"
       || str_truthy "concentrated_solar_power" = true.
Proof.
  intros Hact H1 H2 H3 H4. split.
  - unfold sources_row. rewrite Hact.
    apply String.eqb_neq in H1, H2, H3, H4.
    rewrite H1, H2, H3, H4.
    by rewrite orb_true_r.
  - intros technology. by rewrite orb_true_r.
Qed.

Lemma has_weather_columns_lookups (data : DataFrame) :
  has_weather_columns data = true ->
  exists dhi dirhi pressure temperature windspeed z0,
    data !! "dhi" = Some dhi /\ data !! "dirhi" = Some dirhi
    /\ data !! "pressure" = Some pressure
    /\ data !! "temperature" = Some temperature
    /\ data !! "windspeed" = Some windspeed /\ data !! "z0" = Some z0.
Proof.
  unfold has_weather_columns, weather_columns. simpl. intros Hw.
  destruct (data !! "dhi") as [dhi|]; [|done].
  destruct (data !! "dirhi") as [dirhi|]; [|done].
  destruct (data !! "pressure") as [pressure|]; [|done].
  destruct (data !! "temperature") as [temperature|]; [|done].
  destruct (data !! "windspeed") as [windspeed|]; [|done].
  destruct (data !! "z0") as [z0|]; [|done].
  by exists dhi, dirhi, pressure, temperature, windspeed, z0.
Qed.

(** A row of a variant with a time series and a fixed flag other than 0
    and 1 raises the error on the fixed attribute, and no source is
    added. *)
Lemma sources_row_fixed_error (filepath : Scenario) (so : SourceRow)
    (s : SourcesState) :
  truthy (so_active so) = true ->
  so_fixed so <> 0 -> so_fixed so <> 1 ->
  so_technology so <> "other" ->
  has_weather_columns (sources_data s) = true ->
  exists s',
    sources_row filepath so s = (Raise (fixed_error (so_label so)), s')
    /\ List.filter is_source (nodes_sources s')
       = List.filter is_source (nodes_sources s).
Proof.
  intros Hact Hf0 Hf1 Hother Hw.
  destruct (has_weather_columns_lookups _ Hw)
    as (dhi & dirhi & pressure & temperature & windspeed & z0
        & Hdhi & Hdirhi & Hpressure & Htemperature & Hwindspeed & Hz0).
  apply Z.eqb_neq in Hf0, Hf1. apply String.eqb_neq in Hother.
  destruct s as [created busd data]; simpl in *.
  unfold sources_row. rewrite Hact, Hother.
  destruct (String.eqb (so_technology so) "photovoltaic").
  { unfold_sources; run_monad. step_lookups. rewrite Hf0, Hf1. eauto. }
  destruct (String.eqb (so_technology so) "windpower").
  { unfold_sources; run_monad.
    rewrite so_select_present
      by (simpl; by rewrite Hwindspeed, Htemperature, Hz0, Hpressure).
    step_lookups. rewrite Hf0, Hf1. eauto. }
  destruct (String.eqb (so_technology so) "timeseries").
  { unfold_sources; run_monad. rewrite Hf0, Hf1. eauto. }
  rewrite orb_true_r.
  unfold_sources; run_monad. step_lookups.
  destruct (String.eqb (so_technology so) "solar_thermal_flat_plate");
    [|destruct (String.eqb (so_technology so) "concentrated_solar_power")];
    step_lookups; rewrite Hf0, Hf1; simpl;
    (eexists; split; [reflexivity|]);
    simpl; by rewrite List.filter_app, app_nil_r.
Qed.

Lemma has_weather_columns_insert_ghi (data : DataFrame) (c : list xnum) :
  has_weather_columns data = true ->
  has_weather_columns (<["ghi" := c]> data) = true.
Proof.
  unfold has_weather_columns, weather_columns. simpl.
  by rewrite !lookup_insert_ne by done.
Qed.

Lemma sources_row_keeps_weather (filepath : Scenario) (so : SourceRow)
    (s : SourcesState) :
  has_weather_columns (sources_data s) = true ->
  has_weather_columns (sources_data (sources_row filepath so s).2) = true.
Proof.
  intros Hw. destruct s as [created busd data]; simpl in Hw.
  unfold sources_row.
  destruct (truthy (so_active so)); [|done].
  repeat (match goal with
          | |- context [if ?b then _ else _] => destruct b
          end; [unfold_sources; run_monad; run_paths; simpl;
                auto using has_weather_columns_insert_ghi|]).
  done.
Qed.

Lemma for_each_invariant {S A} (P : S -> Prop) (body : A -> M S unit)
    (l : list A) :
  (forall x s, P s -> P (body x s).2) ->
  forall s, P s -> P (for_each l body s).2.
Proof.
  intros Hbody. induction l as [|x l IH]; intros s Hs; simpl; [done|].
  rewrite bind_unfold. specialize (Hbody x s Hs).
  destruct (body x s) as [[[]|e] s1]; simpl in *; auto.
Qed.

(** *** The photovoltaic feed-in *)

Lemma clip_value_in_unit_interval (x : xnum) :
  in_unit_interval (clip_value x) = true.
Proof.
  destruct x as [v| | |]; try reflexivity.
  unfold clip_value, xnum_ltb, xnum_gtb, Qltb.
  destruct (Qle_bool 0 v) eqn:H0; simpl; [|reflexivity].
  destruct (Qle_bool v 1) eqn:H1; simpl; [|reflexivity].
  by rewrite H0, H1.
Qed.

Lemma clip_value_fix (x : xnum) :
  fill_value 0 (clip_value x) = clip_value x.
Proof.
  pose proof (clip_value_in_unit_interval x) as Hx.
  by destruct (clip_value x).
Qed.

Lemma list_insert_middle {A} (p q : list A) (x y : A) :
  <[length p := y]> (p ++ x :: q) = p ++ y :: q.
Proof.
  replace (length p) with (length p + 0)%nat by lia.
  by rewrite insert_app_r.
Qed.

Lemma fillna_idemp (l : list xnum) : fillna 0 (fillna 0 l) = fillna 0 l.
Proof.
  unfold fillna. rewrite map_map. apply map_ext. by intros [].
Qed.

Lemma clip_value_fillna (l : list xnum) :
  map clip_value (fillna 0 l) = map clip_value l.
Proof.
  unfold fillna. rewrite map_map. apply map_ext. by intros [].
Qed.

Lemma clip_step_middle (p q : list xnum) (x : xnum) :
  fillna 0 p = p ->
  clip_step (p ++ x :: q) (length p) = p ++ clip_value x :: fillna 0 q.
Proof.
  intros Hp. unfold clip_step.
  rewrite list_lookup_middle by done.
  assert (Hfill : forall y,
            fillna 0 (p ++ y :: q)
            = p ++ fill_value 0 y :: fillna 0 q).
  { intros y. unfold fillna in *. by rewrite map_app, Hp. }
  destruct x as [v| | |]; simpl.
  - unfold Qltb. destruct (Qle_bool 0 v) eqn:H0; simpl.
    + rewrite list_lookup_middle by done. simpl. unfold Qltb.
      destruct (Qle_bool v 1) eqn:H1; simpl.
      * by rewrite Hfill.
      * by rewrite list_insert_middle, Hfill.
    + rewrite list_insert_middle, list_lookup_middle by done. simpl.
      by rewrite Hfill.
  - rewrite list_lookup_middle by done. simpl.
    by rewrite list_insert_middle, Hfill.
  - rewrite list_insert_middle, list_lookup_middle by done. simpl.
    by rewrite Hfill.
  - rewrite list_lookup_middle by done. simpl. by rewrite Hfill.
Qed.

Lemma clip_fold (n : nat) :
  forall p q : list xnum,
    length q = n -> fillna 0 p = p ->
    fold_left clip_step (seq (length p) n) (p ++ q) = p ++ map clip_value q.
Proof.
  induction n as [|n IH]; intros p q Hq Hp.
  - destruct q; [reflexivity | discriminate].
  - destruct q as [|x q]; [discriminate|]. simpl in Hq.
    simpl. rewrite clip_step_middle by done.
    specialize (IH (p ++ [clip_value x]) (fillna 0 q)).
    rewrite length_app in IH. simpl in IH.
    replace (length p + 1)%nat with (S (length p)) in IH by lia.
    rewrite <- app_assoc in IH. simpl in IH.
    rewrite IH.
    + by rewrite clip_value_fillna, <- app_assoc.
    + unfold fillna. rewrite length_map. lia.
    + unfold fillna in *. rewrite map_app, Hp. cbn [map].
      by rewrite clip_value_fix.
Qed.

Lemma clip_feedin_map (feedin : list xnum) :
  clip_feedin feedin = map clip_value feedin.
Proof. exact (clip_fold (length feedin) [] feedin eq_refl eq_refl). Qed.

Lemma clip_feedin_in_unit_interval (feedin : list xnum) :
  forallb in_unit_interval (clip_feedin feedin) = true.
Proof.
  rewrite clip_feedin_map. induction feedin as [|x l IH]; simpl; [done|].
  by rewrite clip_value_in_unit_interval, IH.
Qed.

Lemma forallb_in_unit_interval_not_nan (l : list xnum) :
  forallb in_unit_interval l = true ->
  forallb (fun x => negb (is_nan x)) l = true.
Proof.
  induction l as [|x l IH]; simpl; [done|].
  intros [Hx Hl]%andb_true_iff. rewrite IH by done. by destruct x.
Qed.

(** C5, amended. The feed-in of a photovoltaic source reaches
    [create_source] with every value between 0 and 1 and none missing:
    a negative value has become 0, a value above 1 has become 1 and a
    missing value 0. *)
Theorem pv_feedin_clipped (so : SourceRow) (s s' : SourcesState) :
  pv_source so s = (Ok tt, s') ->
  exists bus args,
    nodes_sources s'
      = nodes_sources s
        ++ [NSource (so_label so) {[ bus_label bus := source_flow so args ]}]
    /\ flow_series args
       = Some (map clip_value (pv_feedin (so_pv so) (sources_data s')))
    /\ forallb in_unit_interval
         (map clip_value (pv_feedin (so_pv so) (sources_data s'))) = true
    /\ forallb (fun x => negb (is_nan x))
         (map clip_value (pv_feedin (so_pv so) (sources_data s'))) = true.
Proof.
  destruct s as [created busd data].
  revert s'. unfold_sources; run_monad; run_paths;
    intros s' Hrun; simplify_eq; simpl.
  all: eexists _, _; split; [reflexivity|].
  all: rewrite clip_feedin_map; split; [reflexivity|].
  all: rewrite <- clip_feedin_map.
  all: split; [|apply forallb_in_unit_interval_not_nan];
    apply clip_feedin_in_unit_interval.
Qed.

(** C4. An active row of the time-series, photovoltaic, wind power or
    solar thermal variant whose fixed flag is neither 0 nor 1 raises the
    error that names its label, and no source is added for it; the
    constructor of [Sources] passes the error on (or the error of an
    earlier row) and leaves [nodes] as it was. The weather data has the
    columns the constructor documents. *)
Theorem sources_fixed_flag_error (filepath : Scenario) (so : SourceRow)
    (pre post : list SourceRow) (nodes : list Node) (busd : gmap string Bus)
    (data : DataFrame) :
  truthy (so_active so) = true ->
  so_fixed so <> 0 -> so_fixed so <> 1 ->
  so_technology so <> "other" ->
  has_weather_columns data = true ->
  let before :=
    for_each pre (sources_row filepath)
      {| nodes_sources := []; sources_busd := busd; sources_data := data |} in
  (exists s',
     sources_row filepath so before.2
       = (Raise (fixed_error (so_label so)), s')
     /\ List.filter is_source (nodes_sources s')
        = List.filter is_source (nodes_sources before.2))
  /\ Sources_init (pre ++ so :: post) nodes busd filepath data
     = (match before.1 with
        | Ok _ => Raise (fixed_error (so_label so))
        | Raise e => Raise e
        end, nodes).
Proof.
  intros Hact Hf0 Hf1 Hother Hw before.
  assert (Hbefore : has_weather_columns (sources_data before.2) = true).
  { apply (for_each_invariant
             (fun s => has_weather_columns (sources_data s) = true));
      [intros x s; apply sources_row_keeps_weather | exact Hw]. }
  destruct (sources_row_fixed_error filepath so before.2
              Hact Hf0 Hf1 Hother Hbefore) as (s' & Hrow & Hsources).
  split; [by exists s'|].
  unfold Sources_init. rewrite for_each_app. fold before.
  destruct before as [[[]|e] s1]; simpl in *; [|reflexivity].
  rewrite bind_unfold, Hrow. reflexivity.
Qed.

End SourceProperties.

Lemma sources_dispatch_falls_to_solar_heat_witness :
  sources_row example_scenario (example_source "S" "biomass" 1)
  = solar_heat_source (example_source "S" "biomass" 1)
  /\ forall technology : string,
       String.eqb technology "solar_thermal_flat_plate"
       || str_truthy "concentrated_solar_power" = true.
Proof.
  apply (sources_dispatch_falls_to_solar_heat example_scenario
           (example_source "S" "biomass" 1)).
  - reflexivity.
  - discriminate.
  - discriminate.
  - discriminate.
  - discriminate.
Defined.

Lemma sources_fixed_flag_error_witness :
  let so := example_source "PV" "photovoltaic" 2 in
  let before :=
    for_each [] (sources_row example_scenario)
      {| nodes_sources := []; sources_busd := example_busd;
         sources_data := example_weather |} in
  (exists s',
     sources_row example_scenario so before.2
       = (Raise (fixed_error (so_label so)), s')
     /\ List.filter is_source (nodes_sources s')
        = List.filter is_source (nodes_sources before.2))
  /\ Sources_init ([] ++ so :: []) [] example_busd example_scenario
       example_weather
     = (match before.1 with
        | Ok _ => Raise (fixed_error (so_label so))
        | Raise e => Raise e
        end, []).
Proof.
  apply (sources_fixed_flag_error example_scenario
           (example_source "PV" "photovoltaic" 2) [] [] [] example_busd
           example_weather).
  - reflexivity.
  - discriminate.
  - discriminate.
  - discriminate.
  - vm_compute. reflexivity.
Defined.

(** C5, as stated, fails for solar thermal sources: the collector heat
    reaches [create_source] as the collector computes it, divided by
    1000; here its first value is 2. *)
Lemma solar_heat_series_not_clipped :
  exists nodes' outputs flow series,
    Sources_init [example_source "ST" "solar_thermal_flat_plate" 1] []
      example_busd example_scenario example_weather = (Ok tt, nodes')
    /\ nodes' !! 1%nat = Some (NSource "ST" outputs)
    /\ outputs !! "ST_bus" = Some flow
    /\ flow_series (flow_args flow) = Some series
    /\ series !! 0%nat = Some (Fin (2000 # 1000))
    /\ forallb in_unit_interval series = false.
Proof.
  do 4 eexists. split; [vm_compute; reflexivity|].
  split; [reflexivity|]. split; [reflexivity|].
  split; [reflexivity|]. split; reflexivity.
Qed.

Lemma pv_feedin_clipped_witness :
  let so := example_source "PV" "photovoltaic" 1 in
  let s := example_sources_state in
  let s' := (pv_source so s).2 in
  exists bus args,
    nodes_sources s'
      = nodes_sources s
        ++ [NSource (so_label so) {[ bus_label bus := source_flow so args ]}]
    /\ flow_series args
       = Some (map clip_value (pv_feedin (so_pv so) (sources_data s')))
    /\ forallb in_unit_interval
         (map clip_value (pv_feedin (so_pv so) (sources_data s'))) = true
    /\ forallb (fun x => negb (is_nan x))
         (map clip_value (pv_feedin (so_pv so) (sources_data s'))) = true.
Proof.
  intros so s s'.
  apply (pv_feedin_clipped so s s').
  vm_compute. reflexivity.
Defined.

(** ** Link builder *)

Lemma solph_Investment_accepted (i : Investment) :
  investment_accepted i = true -> solph_Investment i = Ok i.
Proof.
  unfold investment_accepted, solph_Investment.
  by repeat destruct (_ && _).
Qed.

Lemma link_investment_accepted (link : LinkRow) (c c' : Q) :
  investment_accepted (link_investment link c) = true ->
  solph_Investment (link_investment link c') = Ok (link_investment link c').
Proof.
  intros Hacc. apply solph_Investment_accepted.
  revert Hacc. unfold investment_accepted, solph_Investment. simpl.
  by repeat destruct (_ && _).
Qed.

(** C3. An active link between two different buses of the dictionary,
    with investment values that [solph.Investment] accepts, is created
    in either mode, with an investment on each of its two output flows,
    and the two investments are the same: same bounds, cost and offset.
    In 'undirected' mode their periodical cost is half of the value of
    the row and the conversion factor of the reverse direction is the
    efficiency, as is that of the forward direction. In 'directed' mode
    their periodical cost is the value of the row and the conversion
    factor of the reverse direction is 0. *)
Theorem links_row_directions (busd : gmap string Bus) (link : LinkRow)
    (nodes : list Node) (bus_1 bus_2 : Bus) :
  truthy (link_active link) = true ->
  busd !! link_bus_1 link = Some bus_1 ->
  busd !! link_bus_2 link = Some bus_2 ->
  bus_label bus_1 <> bus_label bus_2 ->
  link_directed link = "undirected" \/ link_directed link = "directed" ->
  investment_accepted (link_investment link (link_periodical_costs link))
  = true ->
  exists inputs outputs factors forward reverse,
    links_row busd link nodes
      = (Ok tt, nodes ++ [NLink (link_label link) inputs outputs factors])
    /\ outputs !! bus_label bus_2 = Some forward
    /\ outputs !! bus_label bus_1 = Some reverse
    /\ exists investment_,
         investment forward = Some investment_
         /\ investment reverse = Some investment_
         /\ minimum investment_ = Fin (link_min_investment_capacity link)
         /\ maximum investment_ = Fin (link_max_investment_capacity link)
         /\ existing investment_ = link_existing_capacity link
         /\ offset investment_ = Some (link_fix_investment_costs link)
         /\ if String.eqb (link_directed link) "undirected" then
              ep_costs investment_ = (link_periodical_costs link / 2)%Q
              /\ factors !! (bus_label bus_2, bus_label bus_1)
                 = Some (link_efficiency link)
              /\ factors !! (bus_label bus_1, bus_label bus_2)
                 = Some (link_efficiency link)
            else
              ep_costs investment_ = link_periodical_costs link
              /\ factors !! (bus_label bus_2, bus_label bus_1) = Some 0%Q.
Proof.
  intros Hact H1 H2 Hne Hmode Hacc.
  unfold links_row. rewrite Hact.
  unfold link_ep_costs, link_reverse_factor. run_monad.
  destruct Hmode as [Hm | Hm]; rewrite Hm; simpl; rewrite H1, H2; simpl;
    rewrite (link_investment_accepted link _ _ Hacc); simpl.
  - eexists _, _, _, _, _. split; [reflexivity|].
    split; [|split].
    + rewrite lookup_insert_ne by done. apply lookup_singleton_eq.
    + apply lookup_insert_eq.
    + eexists. repeat split.
      * apply lookup_insert_eq.
      * rewrite lookup_insert_ne by congruence. apply lookup_singleton_eq.
  - eexists _, _, _, _, _. split; [reflexivity|].
    split; [|split].
    + rewrite lookup_insert_ne by done. apply lookup_singleton_eq.
    + apply lookup_insert_eq.
    + eexists. repeat split. apply lookup_insert_eq.
Qed.

Lemma links_row_directions_witness :
  exists inputs outputs factors forward reverse,
    links_row example_busd (example_link "directed") []
      = (Ok tt, [] ++ [NLink "L" inputs outputs factors])
    /\ outputs !! "E" = Some forward
    /\ outputs !! "B" = Some reverse
    /\ exists investment_,
         investment forward = Some investment_
         /\ investment reverse = Some investment_
         /\ minimum investment_ = Fin 0
         /\ maximum investment_ = Fin 100
         /\ existing investment_ = 0%Q
         /\ offset investment_ = Some 0%Q
         /\ ep_costs investment_ = 10%Q
         /\ factors !! ("E", "B") = Some 0%Q.
Proof.
  assert (Hne : bus_label (mkBus "B") <> bus_label (mkBus "E"))
    by discriminate.
  exact (links_row_directions example_busd (example_link "directed") []
           (mkBus "B") (mkBus "E") eq_refl eq_refl eq_refl Hne
           (or_intror eq_refl) eq_refl).
Defined.

(** ** Sink builder *)







Section SinkProperties.
Context `{Libraries}.


End SinkProperties.


(** ** Transformer builder *)









(** ** Profiles of flows *)

(** C1, as stated, fails: a sink with a standard load profile and the
    fixed flag 0 hands [create_sink] a maximum without a minimum, which
    is neither a fixed profile nor a pair of a minimum and a maximum;
    an unfixed sink hands it no profile at all. *)
Lemma slp_sink_maximum_without_minimum :
  exists args,
    Sinks_init [example_sink "h0" 0] example_busd [] example_scenario
      example_weather
    = (Ok tt, [NSink "D" {[ "B" := sink_flow args ]}])
    /\ de_fixed (example_sink "h0" 0) = 0
    /\ has_key "fix" args = false
    /\ has_key "min" args = false
    /\ has_key "max" args = true
    /\ exactly_one_profile args = false.
Proof.
  eexists. split; [vm_compute; reflexivity|].
  repeat split; reflexivity.
Qed.

Lemma shape_exactly_one (args : gmap string profile) :
  fix_only args || min_max_only args = true ->
  exactly_one_profile args = true /\ not_both args = true.
Proof.
  unfold fix_only, min_max_only, exactly_one_profile, not_both.
  by destruct (has_key "fix" args), (has_key "min" args),
    (has_key "max" args).
Qed.

Ltac unfold_sinks :=
  cbv [unfixed_sink timeseries_sink slp_sink richardson_sink create_sink
       unfixed_sink_args timeseries_sink_args slp_sink_args slp_demand
       richardson_curve richardson_sink_args de_bus de_append].

Ltac close_profiles :=
  intros; simplify_eq; simpl; rewrite <- ?app_assoc;
  eexists; (split; [first [reflexivity | symmetry; apply app_nil_r]|]);
  cbn [forallb attachments_all attachments app];
  rewrite ?map_to_list_singleton; reflexivity.

Section ProfileProperties.
Context `{Libraries}.

Lemma sources_row_profiles (filepath : Scenario) (so : SourceRow)
    (s s' : SourcesState) :
  so_fixed so = 0 \/ so_fixed so = 1 ->
  sources_row filepath so s = (Ok tt, s') ->
  exists created,
    nodes_sources s' = nodes_sources s ++ created
    /\ forallb (attachments_all (source_profile_shape so)) created = true.
Proof.
  intros Hfixed. destruct s as [created busd data].
  unfold source_profile_shape, sources_row. revert s'.
  destruct (truthy (so_active so)); [|run_monad; close_profiles].
  rewrite orb_true_r.
  unfold_sources; run_monad.
  destruct Hfixed as [Hf | Hf]; rewrite !Hf; simpl;
    run_paths; close_profiles.
Qed.

#[local] Arguments str_in : simpl never.

Lemma sinks_row_profiles (filepath : Scenario) (data : DataFrame)
    (de : SinkRow) (s s' : SinksState) :
  de_fixed de = 0 \/ de_fixed de = 1 ->
  sinks_row filepath data de s = (Ok tt, s') ->
  exists created,
    nodes_sinks s' = nodes_sinks s ++ created
    /\ forallb (attachments_all (sink_profile_shape de)) created = true.
Proof.
  intros Hfixed. destruct s as [created busd].
  unfold sink_profile_shape, sinks_row. revert s'.
  destruct (truthy (de_active de)); [|run_monad; close_profiles].
  destruct (String.eqb (de_load_profile de) "x");
    [unfold_sinks; run_monad; run_paths; close_profiles|].
  destruct (String.eqb (de_load_profile de) "timeseries");
    [unfold_sinks; run_monad;
     destruct Hfixed as [Hf | Hf]; rewrite !Hf; simpl;
     run_paths; close_profiles|].
  destruct (str_in (de_load_profile de) slps);
    [unfold_sinks; run_monad;
     destruct Hfixed as [Hf | Hf]; rewrite !Hf; simpl;
     run_paths; close_profiles|].
  destruct (String.eqb (de_load_profile de) "richardson");
    [|run_monad; close_profiles].
  unfold_sinks; run_monad.
  destruct Hfixed as [Hf | Hf]; rewrite !Hf; simpl;
    run_paths; close_profiles.
Qed.

(** C1, amended. For a source row whose fixed flag is 0 or 1, the flow
    of the source created has a fixed profile or a minimum and a maximum
    profile, exactly one of the two; the same holds for a sink with a
    time series. A sink with a standard load profile or a stochastic
    profile has a fixed profile alone for the flag 1 and a maximum alone,
    without a minimum, for the flag 0; an unfixed sink has none of the
    three. No flow has a fixed profile together with a minimum or a
    maximum. *)
Theorem flow_profiles_by_variant (filepath : Scenario) (data : DataFrame)
    (so : SourceRow) (de : SinkRow) (s s' : SourcesState)
    (t t' : SinksState) :
  so_fixed so = 0 \/ so_fixed so = 1 ->
  de_fixed de = 0 \/ de_fixed de = 1 ->
  sources_row filepath so s = (Ok tt, s') ->
  sinks_row filepath data de t = (Ok tt, t') ->
  exists sources sinks,
    nodes_sources s' = nodes_sources s ++ sources
    /\ nodes_sinks t' = nodes_sinks t ++ sinks
    /\ forallb (attachments_all (source_profile_shape so)) sources = true
    /\ forallb (attachments_all exactly_one_profile) sources = true
    /\ forallb (attachments_all (sink_profile_shape de)) sinks = true
    /\ (if String.eqb (de_load_profile de) "timeseries"
        then forallb (attachments_all exactly_one_profile) sinks = true
        else True)
    /\ forallb (attachments_all not_both) (sources ++ sinks) = true.
Proof.
  intros Hso Hde Hsources Hsinks.
  destruct (sources_row_profiles _ _ _ _ Hso Hsources) as (sources & Hs & Hshape).
  destruct (sinks_row_profiles _ _ _ _ _ Hde Hsinks) as (sinks & Ht & Hshape').
  exists sources, sinks. split; [done|]. split; [done|].
  assert (Hsource : forall args,
            source_profile_shape so args = true ->
            exactly_one_profile args = true /\ not_both args = true).
  { intros args Hargs. apply shape_exactly_one.
    unfold source_profile_shape in Hargs.
    destruct (String.eqb (so_technology so) "other");
      [|destruct (so_fixed so =? 1)]; rewrite Hargs;
      by rewrite ?orb_true_r. }
  assert (Hsink : forall args,
            sink_profile_shape de args = true -> not_both args = true).
  { intros args. unfold sink_profile_shape.
    destruct (String.eqb (de_load_profile de) "x"),
      (String.eqb (de_load_profile de) "timeseries"), (de_fixed de =? 1);
      unfold not_both, no_profile, fix_only, min_max_only, max_only;
      by destruct (has_key "fix" args), (has_key "min" args),
        (has_key "max" args). }
  assert (Hsink' : forall args,
            String.eqb (de_load_profile de) "timeseries" = true ->
            sink_profile_shape de args = true ->
            exactly_one_profile args = true).
  { intros args Hts Hargs. apply shape_exactly_one.
    unfold sink_profile_shape in Hargs. rewrite Hts in Hargs.
    destruct (String.eqb (de_load_profile de) "x") eqn:Hx.
    - apply String.eqb_eq in Hts, Hx. rewrite Hx in Hts. discriminate.
    - destruct (de_fixed de =? 1); rewrite Hargs; by rewrite ?orb_true_r. }
  assert (Hall : forall (p q : gmap string profile -> bool) nodes,
            (forall args, p args = true -> q args = true) ->
            forallb (attachments_all p) nodes = true ->
            forallb (attachments_all q) nodes = true).
  { intros p q nodes Hpq. rewrite !forallb_forall. intros Hp n Hn.
    specialize (Hp n Hn). unfold attachments_all in *.
    rewrite forallb_forall in *. intros f Hf. apply Hpq, Hp, Hf. }
  split; [done|].
  split; [apply (Hall (source_profile_shape so)); [apply Hsource | done]|].
  split; [done|]. split.
  - destruct (String.eqb (de_load_profile de) "timeseries") eqn:Hts; [|done].
    apply (Hall (sink_profile_shape de)); [|done].
    intros args. by apply Hsink'.
  - rewrite forallb_app. apply andb_true_iff. split.
    + apply (Hall (source_profile_shape so)); [apply Hsource | done].
    + apply (Hall (sink_profile_shape de)); [apply Hsink | done].
Qed.

End ProfileProperties.

Lemma flow_profiles_by_variant_witness :
  let so := example_source "PV" "photovoltaic" 1 in
  let de := example_sink "h0" 0 in
  let s := example_sources_state in
  let t := example_sinks_state in
  let s' := (sources_row example_scenario so s).2 in
  let t' := (sinks_row example_scenario example_weather de t).2 in
  exists sources sinks,
    nodes_sources s' = nodes_sources s ++ sources
    /\ nodes_sinks t' = nodes_sinks t ++ sinks
    /\ forallb (attachments_all (source_profile_shape so)) sources = true
    /\ forallb (attachments_all exactly_one_profile) sources = true
    /\ forallb (attachments_all (sink_profile_shape de)) sinks = true
    /\ (if String.eqb (de_load_profile de) "timeseries"
        then forallb (attachments_all exactly_one_profile) sinks = true
        else True)
    /\ forallb (attachments_all not_both) (sources ++ sinks) = true.
Proof.
  intros so de s t s' t'.
  apply (flow_profiles_by_variant example_scenario example_weather
           so de s s' t t').
  - right. reflexivity.
  - left. reflexivity.
  - vm_compute. reflexivity.
  - vm_compute. reflexivity.
Defined.

(** ** Runs on the example tables *)

Example clip_feedin_example :
  clip_feedin [Fin (-0.1); NaN; Fin 1.2; Fin 0.5; PInf; NInf]
  = [Fin 0; Fin 0; Fin 1; Fin 0.5; Fin 1; Fin 0].
Proof. reflexivity. Qed.

Example air_chiller_temp_high_example :
  air_chiller_temp_high [Fin 5; Fin 10; Fin 30; NaN] 10
  = [Fin 5; Fin (10 + 0.1); Fin 30; NaN].
Proof. reflexivity. Qed.

Example clamp_occupants_example :
  map clamp_occupants [1; 5; 6; 12] = [1; 5; 5; 5].
Proof. reflexivity. Qed.

Example buses_example :
  buses [example_bus "B"] [] =
    (Ok tt,
     {| bs_nodes :=
          [NBus (mkBus "B");
           NSink "B_excess" {[ "B" := excess_flow (example_bus "B") ]}];
        bs_busd := {[ "B" := mkBus "B" ]} |}).
Proof. vm_compute. reflexivity. Qed.

Example undirected_link_example :
  link_ep_costs (example_link "undirected") = Ok (10 / 2)%Q
  /\ link_reverse_factor (example_link "undirected") = 0.9%Q
  /\ link_ep_costs (example_link "directed") = Ok 10%Q
  /\ link_reverse_factor (example_link "directed") = 0%Q
  /\ succeeds (Links_init [example_link "sideways"] [] example_busd) = false.
Proof. repeat split; reflexivity. Qed.

Example unfixed_sink_example :
  Sinks_init [example_sink "x" 0] example_busd [] example_scenario
    example_weather
  = (Ok tt, [NSink "D" {[ "B" := sink_flow (unfixed_sink_args (example_sink "x" 0)) ]}])
  /\ no_profile (unfixed_sink_args (example_sink "x" 0)) = true.
Proof. split; [vm_compute|]; reflexivity. Qed.

Example air_chiller_absorbed_example :
  air_chiller_temp_high [Fin (inject_Z (10 ^ 16)); Fin 20]
    (inject_Z (10 ^ 16))
  = [Fin (inject_Z (10 ^ 16)); Fin 20].
Proof. reflexivity. Qed.

Example refused_investment_example :
  Links_init [example_nonconvex_link] [] example_busd
  = (Raise (AttributeError "existing"), [])
  /\ Sources_init [example_fix_costs_source] [] example_busd example_scenario
       example_weather
     = (Raise (AttributeError "offset"), []).
Proof. split; vm_compute; reflexivity. Qed.

(** An investment that is given neither [nonconvex] nor [offset], as in
    the heat transformers and the combined heat and power unit, passes
    the checks of [solph.Investment]. *)
Lemma solph_Investment_defaults (i : Investment) :
  nonconvex i = None -> offset i = None -> solph_Investment i = Ok i.
Proof.
  intros Hn Ho. unfold solph_Investment. rewrite Hn, Ho. simpl.
  by rewrite !andb_false_r.
Qed.

(** * Further properties of the builders *)

(** ** The dictionary of buses *)

Lemma buses_busd_fold (rows : list BusRow) (d : gmap string Bus) (l : string) :
  fold_left (fun d b => if truthy (b_active b)
                        then <[b_label b := mkBus (b_label b)]> d else d)
            rows d !! l
  = if existsb (fun b => truthy (b_active b) && String.eqb (b_label b) l) rows
    then Some (mkBus l) else d !! l.
Proof.
  revert d. induction rows as [|b rows IH]; intros d; simpl; [done|].
  rewrite IH. destruct (truthy (b_active b)); simpl; [|done].
  destruct (String.eqb_spec (b_label b) l) as [<-|Hne]; simpl.
  - rewrite lookup_insert_eq. by destruct (existsb _ _).
  - by rewrite lookup_insert_ne.
Qed.

(** X1. The dictionary that [buses] returns has an entry for a label
    exactly when an active row of the table has that label, and the
    entry is a bus that carries the label. *)
Theorem buses_dictionary (rows : list BusRow) (nodes : list Node)
    (l : string) :
  bs_busd (buses rows nodes).2 !! l
  = if existsb (fun b => truthy (b_active b) && String.eqb (b_label b) l) rows
    then Some (mkBus l) else None.
Proof.
  unfold buses. rewrite for_each_buses_row. simpl.
  by rewrite buses_busd_fold, lookup_empty.
Qed.

(** ** Inactive rows *)

Lemma for_each_filter {S A} (keep : A -> bool) (body : A -> M S unit)
    (l : list A) :
  (forall x s, keep x = false -> body x s = (Ok tt, s)) ->
  forall s, for_each l body s = for_each (List.filter keep l) body s.
Proof.
  intros Hskip. induction l as [|x l IH]; intros s; simpl; [done|].
  destruct (keep x) eqn:Hx; simpl.
  - rewrite !bind_unfold. destruct (body x s) as [[[]|e] s1]; [apply IH | done].
  - rewrite bind_unfold, (Hskip x s Hx). apply IH.
Qed.

Section InactiveRows.
Context `{Libraries}.

(** X2. A row that is not active has no part in what a builder does:
    each of the six builders gives on a table the result it gives on the
    active rows of the table alone, so that an inactive row is never
    validated and never raises. *)
Theorem builders_ignore_inactive_rows :
  (forall rows nodes,
     buses rows nodes
     = buses (List.filter (fun b => truthy (b_active b)) rows) nodes)
  /\ (forall rows nodes busd filepath data,
        Sources_init rows nodes busd filepath data
        = Sources_init (List.filter (fun so => truthy (so_active so)) rows)
            nodes busd filepath data)
  /\ (forall rows busd nodes filepath data,
        Sinks_init rows busd nodes filepath data
        = Sinks_init (List.filter (fun de => truthy (de_active de)) rows)
            busd nodes filepath data)
  /\ (forall rows periods_ nodes busd data,
        Transformers_init rows periods_ nodes busd data
        = Transformers_init
            (List.filter (fun t => truthy (tf_active t)) rows)
            periods_ nodes busd data)
  /\ (forall rows nodes busd data,
        Storages_init rows nodes busd data
        = Storages_init (List.filter (fun s => truthy (s_active s)) rows)
            nodes busd data)
  /\ (forall rows nodes bus,
        Links_init rows nodes bus
        = Links_init (List.filter (fun l => truthy (link_active l)) rows)
            nodes bus).
Proof.
  repeat split; intros.
  - unfold buses. apply for_each_filter.
    intros b s Hb. unfold buses_row. by rewrite Hb.
  - unfold Sources_init. rewrite <- for_each_filter; [done|].
    intros so s Hso. unfold sources_row. by rewrite Hso.
  - unfold Sinks_init. rewrite <- for_each_filter; [done|].
    intros de s Hde. unfold sinks_row. by rewrite Hde.
  - unfold Transformers_init. rewrite <- for_each_filter; [done|].
    intros t s Ht. unfold transformers_row. by rewrite Ht.
  - unfold Storages_init. rewrite <- for_each_filter; [done|].
    intros s0 s Hs. unfold storages_row. by rewrite Hs.
  - unfold Links_init. apply for_each_filter.
    intros l s Hl. unfold links_row. by rewrite Hl.
Qed.

End InactiveRows.

(** ** Links *)

(** X3. A link whose direction is neither 'directed' nor 'undirected'
    stops the constructor of [Links] with the error on the periodical
    costs; the links of the rows before it are in the list [nodes] by
    then and stay there, and the rows behind it are not looked at. *)
Theorem links_failure_keeps_earlier_links (pre post : list LinkRow)
    (link : LinkRow) (nodes : list Node) (bus : gmap string Bus) :
  truthy (link_active link) = true ->
  link_directed link <> "directed" ->
  link_directed link <> "undirected" ->
  Links_init (pre ++ link :: post) nodes bus
  = match Links_init pre nodes bus with
    | (Ok _, created) =>
        (Raise (SystemError "Problem with periodical costs"), created)
    | failed => failed
    end.
Proof.
  intros Hact Hd Hu. unfold Links_init. rewrite for_each_app.
  destruct (for_each pre (links_row bus) nodes) as [[[]|e] created]; [|done].
  simpl. rewrite bind_unfold. unfold links_row, link_ep_costs.
  apply String.eqb_neq in Hd, Hu. rewrite Hact, Hd, Hu. reflexivity.
Qed.

Lemma links_failure_keeps_earlier_links_witness :
  Links_init ([example_link "directed"] ++ example_link "sideways" :: [])
    [] example_busd
  = match Links_init [example_link "directed"] [] example_busd with
    | (Ok _, created) =>
        (Raise (SystemError "Problem with periodical costs"), created)
    | failed => failed
    end.
Proof.
  apply (links_failure_keeps_earlier_links [example_link "directed"] []
           (example_link "sideways") [] example_busd).
  - reflexivity.
  - discriminate.
  - discriminate.
Defined.

(** ** Transformers *)

(** X5. The second output of a generic transformer whose two
    investments [solph.Investment] accepts is sized from the
    first: its minimum, maximum and existing capacity are those of the
    row times efficiency2 over efficiency, at no periodical cost, and
    its conversion factor is efficiency2. When both outputs name the
    same bus, the transformer has this second flow as its only output:
    the flow of the first output, with its periodical cost, is
    overwritten. *)
Theorem generic_transformer_second_output (tf : TransformerRow)
    (s : TransformersState) (b_in b_out b_out2 : Bus) :
  str_in (tf_output2 tf) ["None"; "none"; "x"] = false ->
  Qeq_bool (tf_efficiency tf) 0 = false ->
  transformers_busd s !! tf_input tf = Some b_in ->
  transformers_busd s !! tf_output tf = Some b_out ->
  transformers_busd s !! tf_output2 tf = Some b_out2 ->
  let ratio := (tf_efficiency2 tf / tf_efficiency tf)%Q in
  investment_accepted (generic_investment tf) = true ->
  investment_accepted (generic_investment2 tf ratio) = true ->
  exists outputs factors second investment_,
    generic_transformer tf s
    = (Ok tt,
       {| nodes_transformer :=
            nodes_transformer s
            ++ [NTransformer (tf_label tf)
                  {[ bus_label b_in := transformer_input_flow tf ]}
                  outputs factors];
          transformers_busd := transformers_busd s |})
    /\ outputs !! bus_label b_out2 = Some second
    /\ investment second = Some investment_
    /\ ep_costs investment_ = 0%Q
    /\ minimum investment_ = Fin (ratio * tf_min_investment_capacity tf)
    /\ maximum investment_ = Fin (ratio * tf_max_investment_capacity tf)
    /\ existing investment_ = (ratio * tf_existing_capacity tf)%Q
    /\ factors !! bus_label b_out2 = Some (Scalar (Fin (tf_efficiency2 tf)))
    /\ if String.eqb (bus_label b_out) (bus_label b_out2) then
         size outputs = 1%nat /\ size factors = 1%nat
       else
         outputs !! bus_label b_out = Some (generic_output_flow tf)
         /\ factors !! bus_label b_out = Some (Scalar (Fin (tf_efficiency tf))).
Proof.
  intros Hout2 Heff Hin Hout Hb2 ratio Hacc Hacc2.
  apply solph_Investment_accepted in Hacc, Hacc2. subst ratio.
  destruct s as [created busd]; simpl in *.
  unfold generic_transformer, create_transformer, tf_bus, tf_append, py_div.
  run_monad.
  do 4 (step_lookups; rewrite ?Hout2, ?Heff, ?Hacc, ?Hacc2; simpl).
  eexists _, _, _, _. split; [reflexivity|].
  split; [apply lookup_insert_eq|].
  do 5 (split; [reflexivity|]).
  split; [apply lookup_insert_eq|].
  destruct (String.eqb_spec (bus_label b_out) (bus_label b_out2)) as [->|Hne].
  - rewrite !insert_singleton_eq. by rewrite !map_size_singleton.
  - rewrite !lookup_insert_ne by congruence.
    by rewrite !lookup_singleton_eq.
Qed.

Lemma generic_transformer_second_output_witness :
  let tf := example_generic "H" 0.4 in
  let s := example_transformers_state_heat in
  let ratio := (0.5 / 0.4)%Q in
  exists outputs factors second investment_,
    generic_transformer tf s
    = (Ok tt,
       {| nodes_transformer :=
            [] ++ [NTransformer "G" {[ "E" := transformer_input_flow tf ]}
                     outputs factors];
          transformers_busd := example_busd_heat |})
    /\ outputs !! "H" = Some second
    /\ investment second = Some investment_
    /\ ep_costs investment_ = 0%Q
    /\ minimum investment_ = Fin (ratio * 0)
    /\ maximum investment_ = Fin (ratio * 50)
    /\ existing investment_ = (ratio * 10)%Q
    /\ factors !! "H" = Some (Scalar (Fin 0.5))
    /\ outputs !! "B" = Some (generic_output_flow tf)
    /\ factors !! "B" = Some (Scalar (Fin 0.4)).
Proof.
  exact (generic_transformer_second_output (example_generic "H" 0.4)
           example_transformers_state_heat (mkBus "E") (mkBus "B") (mkBus "H")
           eq_refl eq_refl eq_refl eq_refl eq_refl eq_refl eq_refl).
Defined.

(** X6. The investment of the first output of a generic transformer is
    built before the efficiency is divided by: with the efficiency 0, a
    row that [solph.Investment] refuses fails with that error; a row it
    accepts fails with a division by zero if it has a second output,
    and adds nothing, and is created with its one output if it has
    none. *)
Theorem generic_transformer_zero_efficiency (tf : TransformerRow)
    (s : TransformersState) (b_in b_out : Bus) :
  Qeq_bool (tf_efficiency tf) 0 = true ->
  transformers_busd s !! tf_input tf = Some b_in ->
  transformers_busd s !! tf_output tf = Some b_out ->
  generic_transformer tf s
  = match solph_Investment (generic_investment tf) with
    | Raise e => (Raise e, s)
    | Ok _ =>
        if str_in (tf_output2 tf) ["None"; "none"; "x"] then
          (Ok tt,
           {| nodes_transformer :=
                nodes_transformer s
                ++ [NTransformer (tf_label tf)
                      {[ bus_label b_in := transformer_input_flow tf ]}
                      {[ bus_label b_out := generic_output_flow tf ]}
                      {[ bus_label b_out :=
                           Scalar (Fin (tf_efficiency tf)) ]}];
              transformers_busd := transformers_busd s |})
        else (Raise ZeroDivisionError, s)
    end.
Proof.
  intros Heff Hin Hout. destruct s as [created busd]; simpl in *.
  destruct (solph_Investment (generic_investment tf)) eqn:Hinv;
    [destruct (str_in (tf_output2 tf) ["None"; "none"; "x"]) eqn:Hout2;
       simpl in Hout2|];
    unfold generic_transformer, create_transformer, tf_bus, tf_append, py_div;
    run_monad;
    do 3 (step_lookups; rewrite ?Hinv, ?Hout2, ?Heff; simpl);
    reflexivity.
Qed.

Lemma generic_transformer_zero_efficiency_witness :
  generic_transformer (example_generic "H" 0) example_transformers_state_heat
  = (Raise ZeroDivisionError, example_transformers_state_heat).
Proof.
  exact (generic_transformer_zero_efficiency (example_generic "H" 0)
           example_transformers_state_heat (mkBus "E") (mkBus "B")
           eq_refl eq_refl eq_refl).
Defined.

(** X7. A combined heat and power unit whose three buses are in the
    dictionary is created with one value per period in every series of
    its three flows and in its power loss index: as many values as the
    period count of the scenario, and none for a count below 1. *)
Theorem genericchp_one_value_per_period (tf : TransformerRow) (periods_ : Z)
    (s : TransformersState) (fuel electrical heat : Bus) :
  transformers_busd s !! tf_input tf = Some fuel ->
  transformers_busd s !! tf_output tf = Some electrical ->
  transformers_busd s !! tf_output2 tf = Some heat ->
  exists fuel_flow electrical_flow heat_flow Beta,
    genericchp_transformer tf periods_ s
    = (Ok tt,
       {| nodes_transformer :=
            nodes_transformer s
            ++ [NGenericCHP (tf_label tf)
                  {[ bus_label fuel := fuel_flow ]}
                  {[ bus_label electrical := electrical_flow ]}
                  {[ bus_label heat := heat_flow ]}
                  Beta (chp_back_pressure (tf_chp tf))];
          transformers_busd := transformers_busd s |})
    /\ series_have_length (Z.to_nat periods_) fuel_flow
    /\ series_have_length (Z.to_nat periods_) electrical_flow
    /\ series_have_length (Z.to_nat periods_) heat_flow
    /\ length Beta = Z.to_nat periods_.
Proof.
  intros Hfuel Hel Hheat. destruct s as [created busd]; simpl in *.
  unfold genericchp_transformer, tf_bus, tf_append. run_monad.
  step_lookups.
  eexists _, _, _, _. split; [reflexivity|].
  assert (Hseries : forall x,
            exists l, per_period periods_ x = Series l
                      /\ length l = Z.to_nat periods_).
  { intros x. eexists. split; [reflexivity|]. apply length_replicate. }
  unfold series_have_length, chp_fuel_flow, chp_electrical_flow,
    chp_heat_flow; simpl.
  repeat split; try apply length_replicate;
    repeat first [ apply Hseries | apply map_Forall_empty
                 | apply map_Forall_insert_2 ].
Qed.

Lemma genericchp_one_value_per_period_witness :
  exists fuel_flow electrical_flow heat_flow Beta,
    genericchp_transformer (example_generic "H" 0.4) 3
      example_transformers_state_heat
    = (Ok tt,
       {| nodes_transformer :=
            [] ++ [NGenericCHP "G" {[ "E" := fuel_flow ]}
                     {[ "B" := electrical_flow ]} {[ "H" := heat_flow ]}
                     Beta 0%Q];
          transformers_busd := example_busd_heat |})
    /\ series_have_length 3 fuel_flow
    /\ series_have_length 3 electrical_flow
    /\ series_have_length 3 heat_flow
    /\ length Beta = 3%nat.
Proof.
  exact (genericchp_one_value_per_period (example_generic "H" 0.4) 3
           example_transformers_state_heat (mkBus "E") (mkBus "B") (mkBus "H")
           eq_refl eq_refl eq_refl).
Defined.

Section Unsupported.
Context `{Libraries}.

(** X8. A row of a category that has no builder is passed over without
    an error and without a node: a transformer of a type other than the
    four that are built (so also 'ExtractionTurbineCHP' and
    'OffsetTransformer'), a sink whose load profile is neither 'x',
    'timeseries', 'richardson' nor a standard load profile, and a
    storage that is neither 'Generic' nor 'Stratified'. *)
Theorem rows_without_builder_are_skipped (periods_ : Z) (filepath : Scenario)
    (data : DataFrame) (t : TransformerRow) (de : SinkRow) (st : StorageRow)
    (s_t : TransformersState) (s_de : SinksState) (s_st : StoragesState) :
  tf_transformer_type t <> "GenericTransformer" ->
  tf_transformer_type t <> "compression_heat_transformer" ->
  tf_transformer_type t <> "GenericCHP" ->
  tf_transformer_type t <> "absorption_heat_transformer" ->
  de_load_profile de <> "x" ->
  de_load_profile de <> "timeseries" ->
  de_load_profile de <> "richardson" ->
  str_in (de_load_profile de) slps = false ->
  s_storage_type st <> "Generic" ->
  s_storage_type st <> "Stratified" ->
  transformers_row periods_ data t s_t = (Ok tt, s_t)
  /\ sinks_row filepath data de s_de = (Ok tt, s_de)
  /\ storages_row data st s_st = (Ok tt, s_st).
Proof.
  intros Ht1 Ht2 Ht3 Ht4 Hd1 Hd2 Hd3 Hd4 Hs1 Hs2.
  apply String.eqb_neq in Ht1, Ht2, Ht3, Ht4, Hd1, Hd2, Hd3, Hs1, Hs2.
  split; [|split].
  - unfold transformers_row. rewrite Ht1, Ht2, Ht3, Ht4.
    by destruct (truthy (tf_active t)),
      (String.eqb (tf_transformer_type t) "ExtractionTurbineCHP"),
      (String.eqb (tf_transformer_type t) "OffsetTransformer").
  - unfold sinks_row. rewrite Hd1, Hd2, Hd3, Hd4.
    by destruct (truthy (de_active de)).
  - unfold storages_row. rewrite Hs1, Hs2.
    by destruct (truthy (s_active st)).
Qed.

End Unsupported.

Lemma rows_without_builder_are_skipped_witness :
  transformers_row 2 example_weather
    (example_typed_transformer "OffsetTransformer") example_transformers_state
  = (Ok tt, example_transformers_state)
  /\ sinks_row example_scenario example_weather (example_sink "H0" 1)
       example_sinks_state
     = (Ok tt, example_sinks_state)
  /\ storages_row example_weather (example_storage "generic")
       example_storages_state
     = (Ok tt, example_storages_state).
Proof.
  apply (rows_without_builder_are_skipped 2 example_scenario example_weather
           (example_typed_transformer "OffsetTransformer")
           (example_sink "H0" 1) (example_storage "generic")).
  all: first [discriminate | reflexivity].
Defined.

Lemma list_comprehension_ok {A B} (f : A -> result B) (g : A -> B)
    (l : list A) :
  (forall x, In x l -> f x = Ok (g x)) ->
  list_comprehension f l = Ok (map g l).
Proof.
  induction l as [|x l IH]; intros Hf; simpl; [done|].
  rewrite (Hf x) by (by left). rewrite IH; [done|].
  intros y Hy. apply Hf. by right.
Qed.

Lemma heat_source_of_none (tf : TransformerRow) (temp : string) :
  cht_heat_source (tf_cht tf) <> "Ground" ->
  cht_heat_source (tf_cht tf) <> "GroundWater" ->
  cht_heat_source (tf_cht tf) <> "Air" ->
  cht_heat_source (tf_cht tf) <> "Water" ->
  heat_source_of tf temp = None.
Proof.
  intros H1 H2 H3 H4. apply String.eqb_neq in H1, H2, H3, H4.
  unfold heat_source_of. by rewrite H1, H2, H3, H4.
Qed.

Section CompressionHeatTransformer.
Context `{Libraries}.

(** X9. A compression heat transformer with an unknown heat source
    fails with the error that names its label, after its auxiliary bus
    has been entered in the dictionary. The constructor of
    [Transformers] works on the dictionary of the caller, so the failed
    build leaves [nodes] as it was and the dictionary with the new
    entry. *)
Theorem compression_heat_transformer_unknown_heat_source
    (t : TransformerRow) (temp : string) (periods_ : Z)
    (nodes : list Node) (busd : gmap string Bus) (data : DataFrame) :
  truthy (tf_active t) = true ->
  tf_transformer_type t = "compression_heat_transformer" ->
  mode_suffix (tf_mode t) = Some temp ->
  cht_heat_source (tf_cht t) <> "Ground" ->
  cht_heat_source (tf_cht t) <> "GroundWater" ->
  cht_heat_source (tf_cht t) <> "Air" ->
  cht_heat_source (tf_cht t) <> "Water" ->
  let auxiliary := tf_label t +:+ temp +:+ "_bus" in
  Transformers_init [t] periods_ nodes busd data
  = (Raise (SystemError (tf_label t +:+ " Error in heat source attribute")),
     (nodes, <[auxiliary := mkBus auxiliary]> busd)).
Proof.
  intros Hact Htype Hmode H1 H2 H3 H4 auxiliary.
  unfold Transformers_init, for_each, transformers_row.
  rewrite Hact, Htype. simpl.
  unfold compression_heat_transformer. rewrite Hmode.
  rewrite (heat_source_of_none t temp H1 H2 H3 H4).
  reflexivity.
Qed.

(** X10. A compression heat transformer whose coefficients of
    performance and efficiency are not zero is created behind its
    auxiliary bus and its heat source. Per time step, the conversion
    factor of the auxiliary bus is [(cop - 1) / cop / efficiency] and
    that of the input bus is [1 / cop]; the input factor and the
    efficiency times the heat factor add up to 1. *)
Theorem compression_heat_transformer_factors (tf : TransformerRow)
    (data : DataFrame) (s : TransformersState) (temp source_label : string)
    (capacity : xnum) (temp_high temp_low : list xnum) (cops : list Q)
    (b_in b_out : Bus) :
  let auxiliary := tf_label tf +:+ temp +:+ "_bus" in
  let busd' := <[auxiliary := mkBus auxiliary]> (transformers_busd s) in
  let icing (x : Q) : option Q :=
    if String.eqb (tf_mode tf) "heat_pump" then Some x else None in
  mode_suffix (tf_mode tf) = Some temp ->
  heat_source_of tf temp = Some (source_label, Ok capacity) ->
  (forall s0, cht_temperatures tf data s0 = (Ok (temp_high, temp_low), s0)) ->
  calc_cops temp_high temp_low (cht_quality_grade (tf_cht tf))
    (icing (cht_temp_threshold_icing (tf_cht tf)))
    (icing (cht_factor_icing (tf_cht tf))) (tf_mode tf) = Ok cops ->
  forallb (fun cop => negb (Qeq_bool cop 0)) cops = true ->
  Qeq_bool (tf_efficiency tf) 0 = false ->
  busd' !! tf_input tf = Some b_in ->
  busd' !! tf_output tf = Some b_out ->
  let heat_factors :=
    map (fun cop => ((cop - 1) / cop / tf_efficiency tf)%Q) cops in
  let input_factors := map (fun cop => (1 / cop)%Q) cops in
  compression_heat_transformer tf data s
  = (Ok tt,
     {| nodes_transformer :=
          nodes_transformer s
          ++ [NBus (mkBus auxiliary);
              NSource source_label {[ auxiliary := heat_source_flow capacity ]};
              NTransformer (tf_label tf)
                (<[auxiliary := zero_cost_flow]>
                   {[ bus_label b_in := transformer_input_flow tf ]})
                {[ bus_label b_out := cht_output_flow tf ]}
                (<[bus_label b_in := Series (map Fin input_factors)]>
                   {[ auxiliary := Series (map Fin heat_factors) ]})];
        transformers_busd := busd' |})
  /\ Forall2 (fun input_factor heat_factor =>
                input_factor + tf_efficiency tf * heat_factor == 1)%Q
       input_factors heat_factors.
Proof.
  intros auxiliary busd' icing Hmode Hsource Htemps Hcops Hnz Heff Hin Hout
    heat_factors input_factors.
  assert (Hcop : forall cop, In cop cops -> Qeq_bool cop 0 = false).
  { intros cop Hcop. rewrite forallb_forall in Hnz.
    by apply negb_true_iff, Hnz. }
  split.
  - destruct s as [created busd]; simpl in *.
    unfold compression_heat_transformer. rewrite Hmode, Hsource.
    subst heat_factors input_factors icing busd' auxiliary.
    unfold create_transformer, tf_bus, tf_append, tf_set_bus. run_monad.
    reduce_state. rewrite lookup_insert_eq. reduce_state.
    rewrite Htemps. reduce_state. rewrite Hcops. reduce_state.
    rewrite Hin. reduce_state. rewrite lookup_insert_eq. reduce_state.
    rewrite Hout. reduce_state. rewrite lookup_insert_eq. reduce_state.
    rewrite (list_comprehension_ok _
               (fun cop => ((cop - 1) / cop / tf_efficiency tf)%Q)).
    2:{ intros cop Hin'. unfold py_div. by rewrite (Hcop cop Hin'), Heff. }
    reduce_state. rewrite Hin. reduce_state.
    rewrite (list_comprehension_ok _ (fun cop => (1 / cop)%Q)).
    2:{ intros cop Hin'. unfold py_div. by rewrite (Hcop cop Hin'). }
    reduce_state. simpl. by rewrite <- !app_assoc.
  - subst heat_factors input_factors. clear Hcops Hnz.
    induction cops as [|cop cops IH]; simpl; constructor.
    + assert (Hc : ~ (cop == 0)%Q).
      { apply Qeq_bool_neq, Hcop. by left. }
      assert (He : ~ (tf_efficiency tf == 0)%Q) by by apply Qeq_bool_neq.
      field. by split.
    + apply IH. intros c Hc. apply Hcop. by right.
Qed.

End CompressionHeatTransformer.

Lemma compression_heat_transformer_unknown_heat_source_witness :
  Transformers_init [example_transformer "chiller" "Sun"] 2 [] example_busd
    example_weather
  = (Raise (SystemError "T Error in heat source attribute"),
     ([], <["T_high_temp_bus" := mkBus "T_high_temp_bus"]> example_busd)).
Proof.
  apply (compression_heat_transformer_unknown_heat_source
           (example_transformer "chiller" "Sun") "_high_temp" 2 []
           example_busd example_weather).
  all: first [discriminate | reflexivity].
Defined.

Lemma compression_heat_transformer_factors_witness :
  let tf := example_transformer "chiller" "Air" in
  let s := example_transformers_state in
  let cops := [3; 3]%Q in
  let auxiliary := "T_high_temp_bus" in
  let heat_factors :=
    map (fun cop => ((cop - 1) / cop / tf_efficiency tf)%Q) cops in
  let input_factors := map (fun cop => (1 / cop)%Q) cops in
  compression_heat_transformer tf example_cold_weather s
  = (Ok tt,
     {| nodes_transformer :=
          nodes_transformer s
          ++ [NBus (mkBus auxiliary);
              NSource "T_high_temp_air_source"
                {[ auxiliary := heat_source_flow PInf ]};
              NTransformer "T"
                (<[auxiliary := zero_cost_flow]>
                   {[ "E" := transformer_input_flow tf ]})
                {[ "B" := cht_output_flow tf ]}
                (<["E" := Series (map Fin input_factors)]>
                   {[ auxiliary := Series (map Fin heat_factors) ]})];
        transformers_busd :=
          <[auxiliary := mkBus auxiliary]> (transformers_busd s) |})
  /\ Forall2 (fun input_factor heat_factor =>
                input_factor + tf_efficiency tf * heat_factor == 1)%Q
       input_factors heat_factors.
Proof.
  exact (compression_heat_transformer_factors
           (example_transformer "chiller" "Air") example_cold_weather
           example_transformers_state "_high_temp" "T_high_temp_air_source"
           PInf (map (replace_equal 10) [Fin 5; Fin 10]) [Fin 10] [3; 3]%Q
           (mkBus "E") (mkBus "B")
           eq_refl eq_refl (fun s0 => eq_refl) eq_refl eq_refl eq_refl
           eq_refl eq_refl).
Defined.

(** ** Solar thermal sources *)

Section SolarHeat.
Context `{Libraries}.

Lemma sources_row_unbound_heat (filepath : Scenario) (so : SourceRow)
    (s : SourcesState) :
  truthy (so_active so) = true ->
  so_fixed so = 0 \/ so_fixed so = 1 ->
  so_technology so <> "other" ->
  so_technology so <> "photovoltaic" ->
  so_technology so <> "windpower" ->
  so_technology so <> "timeseries" ->
  so_technology so <> "solar_thermal_flat_plate" ->
  so_technology so <> "concentrated_solar_power" ->
  has_weather_columns (sources_data s) = true ->
  exists s',
    sources_row filepath so s
    = (Raise (UnboundLocalError "collectors_heat"), s').
Proof.
  intros Hact Hfixed H1 H2 H3 H4 H5 H6 Hw.
  destruct (has_weather_columns_lookups _ Hw)
    as (dhi & dirhi & pressure & temperature & windspeed & z0
        & Hdhi & Hdirhi & Hpressure & Htemperature & Hwindspeed & Hz0).
  apply String.eqb_neq in H1, H2, H3, H4, H5, H6.
  destruct s as [created busd data]; simpl in *.
  unfold sources_row. rewrite Hact, H1, H2, H3, H4, orb_true_r.
  unfold_sources; run_monad. step_lookups. rewrite H5, H6. simpl.
  destruct Hfixed as [-> | ->]; simpl; eauto.
Qed.

(** X11. A technology that is none of the six names goes to the solar
    thermal builder, which computes no collector heat for it: with a
    fixed flag of 0 or 1 the row fails on the unbound [collectors_heat],
    and the constructor of [Sources] passes the error on (or the error
    of an earlier row) and leaves [nodes] as it was. *)
Theorem sources_unknown_technology (filepath : Scenario) (so : SourceRow)
    (pre post : list SourceRow) (nodes : list Node) (busd : gmap string Bus)
    (data : DataFrame) :
  truthy (so_active so) = true ->
  so_fixed so = 0 \/ so_fixed so = 1 ->
  so_technology so <> "other" ->
  so_technology so <> "photovoltaic" ->
  so_technology so <> "windpower" ->
  so_technology so <> "timeseries" ->
  so_technology so <> "solar_thermal_flat_plate" ->
  so_technology so <> "concentrated_solar_power" ->
  has_weather_columns data = true ->
  let before :=
    for_each pre (sources_row filepath)
      {| nodes_sources := []; sources_busd := busd; sources_data := data |} in
  Sources_init (pre ++ so :: post) nodes busd filepath data
  = (match before.1 with
     | Ok _ => Raise (UnboundLocalError "collectors_heat")
     | Raise e => Raise e
     end, nodes).
Proof.
  intros Hact Hfixed H1 H2 H3 H4 H5 H6 Hw before.
  assert (Hbefore : has_weather_columns (sources_data before.2) = true).
  { apply (for_each_invariant
             (fun s => has_weather_columns (sources_data s) = true));
      [intros x s; apply sources_row_keeps_weather | exact Hw]. }
  destruct (sources_row_unbound_heat filepath so before.2
              Hact Hfixed H1 H2 H3 H4 H5 H6 Hbefore) as (s' & Hrow).
  unfold Sources_init. rewrite for_each_app. fold before.
  destruct before as [[[]|e] s1]; simpl in *; [|reflexivity].
  rewrite bind_unfold, Hrow. reflexivity.
Qed.

(** X12. A flat plate or concentrating collector whose input and output
    buses are in the dictionary and whose investment [solph.Investment]
    accepts is built as three nodes, in this order:
    a bus '<label>_bus', the source, which feeds that bus and not the
    output bus of the row, and a transformer '<label>_collector' from
    the collector bus and the input bus to the output bus. The source
    carries the collector heat divided by 1000 as its fixed or maximum
    profile; the new bus is entered in the dictionary of the builder. *)
Theorem solar_heat_source_nodes (so : SourceRow) (s : SourcesState)
    (dirhi dhi temperature : list xnum) (b_in b_out : Bus) :
  let p := so_solar_heat so in
  let collector := so_label so +:+ "_bus" in
  let busd' := <[collector := mkBus collector]> (sources_busd s) in
  let ghi := series_add dirhi dhi in
  let heat :=
    map (fun x => xnum_div x 1000)
      (if String.eqb (so_technology so) "solar_thermal_flat_plate"
       then (flat_plate_precalc p ghi dhi temperature).1
       else (csp_precalc p (sh_temperature_inlet p
                            + sh_temperature_difference p)%Q
               temperature dirhi).1) in
  let args : gmap string profile :=
    if so_fixed so =? 1 then {[ "fix" := Series heat ]}
    else <["max" := Series heat]> {[ "min" := Scalar (Fin 0) ]} in
  so_technology so = "solar_thermal_flat_plate"
  \/ so_technology so = "concentrated_solar_power" ->
  so_fixed so = 0 \/ so_fixed so = 1 ->
  sources_data s !! "dirhi" = Some dirhi ->
  sources_data s !! "dhi" = Some dhi ->
  sources_data s !! "temperature" = Some temperature ->
  busd' !! so_input so = Some b_in ->
  busd' !! so_output so = Some b_out ->
  investment_accepted (source_investment so) = true ->
  solar_heat_source so s
  = (Ok tt,
     {| nodes_sources :=
          nodes_sources s
          ++ [NBus (mkBus collector);
              NSource (so_label so) {[ collector := source_flow so args ]};
              NTransformer (so_label so +:+ "_collector")
                (<[bus_label b_in := zero_cost_flow]>
                   {[ collector := zero_cost_flow ]})
                {[ bus_label b_out := zero_cost_flow ]}
                (<[bus_label b_out :=
                     Scalar (Fin (1 - sh_peripheral_losses p))]>
                   (<[bus_label b_in :=
                        Scalar (Fin (sh_electric_consumption p
                                     * (1 - sh_peripheral_losses p)))]>
                      {[ collector := Scalar (Fin 1) ]}))];
        sources_busd := busd';
        sources_data := <["ghi" := ghi]> (sources_data s) |}).
Proof.
  intros p collector busd' ghi heat args Htech Hfixed Hdirhi Hdhi Htemp
    Hin Hout Hacc.
  apply solph_Investment_accepted in Hacc.
  subst p collector busd' ghi heat args.
  destruct s as [created busd data]; simpl in *.
  unfold_sources; run_monad.
  destruct Htech as [Htech | Htech]; rewrite Htech; simpl;
    destruct Hfixed as [Hf | Hf]; rewrite Hf; simpl;
    do 3 (step_lookups; rewrite ?Hacc; simpl);
    rewrite <- !app_assoc; reflexivity.
Qed.

End SolarHeat.

Lemma sources_unknown_technology_witness :
  Sources_init ([] ++ example_source "S" "biomass" 1 :: []) []
    example_busd example_scenario example_weather
  = (Raise (UnboundLocalError "collectors_heat"), []).
Proof.
  apply (sources_unknown_technology example_scenario
           (example_source "S" "biomass" 1) [] [] [] example_busd
           example_weather).
  all: first [discriminate | reflexivity | (right; reflexivity)
             | (vm_compute; reflexivity)].
Defined.

Lemma solar_heat_source_nodes_witness :
  exists s',
    solar_heat_source (example_source "ST" "solar_thermal_flat_plate" 1)
      example_sources_state = (Ok tt, s')
    /\ map node_label (nodes_sources s') = ["ST_bus"; "ST"; "ST_collector"].
Proof.
  eexists. split.
  - apply (solar_heat_source_nodes
             (example_source "ST" "solar_thermal_flat_plate" 1)
             example_sources_state [Fin 1500; Fin 200] [Fin 500; Fin 100]
             [Fin 10; Fin 12] (mkBus "E") (mkBus "B")).
    + left. reflexivity.
    + right. reflexivity.
    + reflexivity.
    + reflexivity.
    + reflexivity.
    + reflexivity.
    + reflexivity.
    + reflexivity.
  - reflexivity.
Defined.

(** ** Fixed flags and missing columns *)

Section FixedFlags.
Context `{Libraries}.

(** X13. A time-series sink whose fixed flag is neither 0 nor 1 is no
    error, unlike the same flag of a source: the sink is created with
    its nominal value and no profile, whatever columns the time series
    sheet of the workbook has. *)
Theorem timeseries_sink_other_fixed_flag (filepath : Scenario)
    (data : DataFrame) (de : SinkRow) (s : SinksState) (bus : Bus) :
  truthy (de_active de) = true ->
  de_load_profile de = "timeseries" ->
  de_fixed de <> 0 -> de_fixed de <> 1 ->
  sinks_busd s !! de_input de = Some bus ->
  sinks_row filepath data de s
  = (Ok tt,
     {| nodes_sinks :=
          nodes_sinks s
          ++ [NSink (de_label de)
                {[ bus_label bus :=
                     sink_flow
                       {[ "nominal_value" :=
                            Scalar (Fin (de_nominal_value de)) ]} ]}];
        sinks_busd := sinks_busd s |}).
Proof.
  intros Hact Hlp Hf0 Hf1 Hbus. apply Z.eqb_neq in Hf0, Hf1.
  destruct s as [created busd]; simpl in *.
  unfold sinks_row. rewrite Hact, Hlp. simpl.
  unfold_sinks; run_monad. rewrite Hf0, Hf1. simpl. rewrite Hbus.
  reflexivity.
Qed.

#[local] Arguments str_in : simpl never.

(** X14. In no variant of a sink is a fixed flag other than 0 and 1 an
    error of its own: whenever such a row is built, the sink has neither
    a fixed profile nor a minimum nor a maximum. *)
Theorem sinks_other_fixed_flag_no_profile (filepath : Scenario)
    (data : DataFrame) (de : SinkRow) (s s' : SinksState) :
  de_fixed de <> 0 -> de_fixed de <> 1 ->
  sinks_row filepath data de s = (Ok tt, s') ->
  exists created,
    nodes_sinks s' = nodes_sinks s ++ created
    /\ forallb (attachments_all no_profile) created = true.
Proof.
  intros Hf0 Hf1. apply Z.eqb_neq in Hf0, Hf1.
  destruct s as [created busd]. unfold sinks_row. revert s'.
  destruct (truthy (de_active de)); [|run_monad; close_profiles].
  destruct (String.eqb (de_load_profile de) "x");
    [unfold_sinks; run_monad; run_paths; close_profiles|].
  destruct (String.eqb (de_load_profile de) "timeseries");
    [unfold_sinks; run_monad; rewrite ?Hf0, ?Hf1; simpl;
     run_paths; close_profiles|].
  destruct (str_in (de_load_profile de) slps);
    [unfold_sinks; run_monad; rewrite ?Hf0, ?Hf1; simpl;
     run_paths; close_profiles|].
  destruct (String.eqb (de_load_profile de) "richardson");
    [|run_monad; close_profiles].
  unfold_sinks; run_monad; rewrite ?Hf0, ?Hf1; simpl;
    run_paths; close_profiles.
Qed.

(** X15. A time-series source with the fixed flag 1 whose column
    '<label>.fix' is not in the time series sheet fails with a key error
    that names the column; the column is looked up before the output
    bus, and nothing is added. *)
Theorem timeseries_source_missing_column (filepath : Scenario)
    (so : SourceRow) (s : SourcesState) :
  truthy (so_active so) = true ->
  so_technology so = "timeseries" ->
  so_fixed so = 1 ->
  time_series filepath !! (so_label so +:+ ".fix") = None ->
  sources_row filepath so s = (Raise (KeyError (so_label so +:+ ".fix")), s).
Proof.
  intros Hact Htech Hfixed Hcolumn.
  unfold sources_row. rewrite Hact, Htech. simpl.
  unfold_sources; run_monad. rewrite Hfixed. simpl. rewrite Hcolumn.
  reflexivity.
Qed.

(** X16. A stochastic sink in a scenario whose temporal resolution is
    none of 'H', 'h', 'min' and 's' fails with the error on the temporal
    resolution, whatever the row says, and nothing is added. *)
Theorem richardson_sink_invalid_resolution (filepath : Scenario)
    (data : DataFrame) (de : SinkRow) (s : SinksState)
    (dirhi dhi : list xnum) :
  truthy (de_active de) = true ->
  de_load_profile de = "richardson" ->
  data !! "dirhi" = Some dirhi ->
  data !! "dhi" = Some dhi ->
  temporal_resolution filepath <> "H" ->
  temporal_resolution filepath <> "h" ->
  temporal_resolution filepath <> "min" ->
  temporal_resolution filepath <> "s" ->
  sinks_row filepath data de s
  = (Raise (SystemError "Invalid Temporal Resolution"), s).
Proof.
  intros Hact Hlp Hdirhi Hdhi H1 H2 H3 H4.
  apply String.eqb_neq in H1, H2, H3, H4.
  unfold sinks_row. rewrite Hact, Hlp. simpl.
  unfold richardson_sink, richardson_curve, richardson_timestep. run_monad.
  rewrite Hdirhi, Hdhi. simpl. rewrite H1, H2, H3, H4. reflexivity.
Qed.

End FixedFlags.

Lemma timeseries_sink_other_fixed_flag_witness :
  sinks_row example_scenario example_weather (example_sink "timeseries" 2)
    example_sinks_state
  = (Ok tt,
     {| nodes_sinks :=
          [] ++ [NSink "D"
                   {[ "B" := sink_flow
                               {[ "nominal_value" := Scalar (Fin 50) ]} ]}];
        sinks_busd := example_busd |}).
Proof.
  apply (timeseries_sink_other_fixed_flag example_scenario example_weather
           (example_sink "timeseries" 2) example_sinks_state (mkBus "B")).
  all: first [discriminate | reflexivity].
Defined.

Lemma sinks_other_fixed_flag_no_profile_witness :
  let s' := (sinks_row example_scenario example_weather
               (example_sink "h0" 2) example_sinks_state).2 in
  exists created,
    nodes_sinks s' = nodes_sinks example_sinks_state ++ created
    /\ forallb (attachments_all no_profile) created = true.
Proof.
  intros s'.
  apply (sinks_other_fixed_flag_no_profile example_scenario example_weather
           (example_sink "h0" 2) example_sinks_state s').
  - discriminate.
  - discriminate.
  - vm_compute. reflexivity.
Defined.

Lemma timeseries_source_missing_column_witness :
  sources_row example_scenario (example_source "wind" "timeseries" 1)
    example_sources_state
  = (Raise (KeyError "wind.fix"), example_sources_state).
Proof.
  apply (timeseries_source_missing_column example_scenario
           (example_source "wind" "timeseries" 1) example_sources_state).
  all: reflexivity.
Defined.

Lemma richardson_sink_invalid_resolution_witness :
  sinks_row example_scenario_quarter_hour example_weather
    (example_richardson 2 1) example_sinks_state
  = (Raise (SystemError "Invalid Temporal Resolution"), example_sinks_state).
Proof.
  apply (richardson_sink_invalid_resolution example_scenario_quarter_hour
           example_weather (example_richardson 2 1) example_sinks_state
           [Fin 1500; Fin 200] [Fin 500; Fin 100]).
  all: first [discriminate | reflexivity].
Defined.

(** ** The photovoltaic feed-in, continued *)

(** X17. Preparing the feed-in keeps the number of values, so the series
    still has one value per time step, and preparing a prepared series
    changes nothing. *)
Theorem clip_feedin_length_idempotent (feedin : list xnum) :
  length (clip_feedin feedin) = length feedin
  /\ clip_feedin (clip_feedin feedin) = clip_feedin feedin.
Proof.
  rewrite !clip_feedin_map. split; [apply length_map|].
  rewrite map_map. apply map_ext. intros x.
  pose proof (clip_value_in_unit_interval x) as Hx.
  destruct (clip_value x) as [v| | |]; try discriminate.
  simpl in Hx. apply andb_true_iff in Hx as [H0 H1].
  unfold clip_value, xnum_ltb, xnum_gtb, Qltb. by rewrite H0, H1.
Qed.

(** X18. A feed-in whose values all lie between 0 and 1 passes the
    preparation unchanged. *)
Theorem clip_feedin_in_range_unchanged (feedin : list xnum) :
  forallb in_unit_interval feedin = true ->
  clip_feedin feedin = feedin.
Proof.
  rewrite clip_feedin_map.
  induction feedin as [|x l IH]; simpl; [done|].
  intros [Hx Hl]%andb_true_iff. rewrite IH by done. f_equal.
  destruct x as [v| | |]; try discriminate.
  simpl in Hx. apply andb_true_iff in Hx as [H0 H1].
  unfold clip_value, xnum_ltb, xnum_gtb, Qltb. by rewrite H0, H1.
Qed.

Lemma clip_feedin_in_range_unchanged_witness :
  clip_feedin [Fin 0; Fin 0.25; Fin 1] = [Fin 0; Fin 0.25; Fin 1].
Proof.
  apply (clip_feedin_in_range_unchanged [Fin 0; Fin 0.25; Fin 1]).
  reflexivity.
Defined.

(** ** Buses, sources and sinks in a row *)

Section Scenario.
Context `{Libraries}.

Lemma for_each_commodity (filepath : Scenario) (busd : gmap string Bus)
    (data : DataFrame) (bus_rows : list BusRow) (rows : list SourceRow) :
  (forall l, is_active_bus bus_rows l = true -> busd !! l = Some (mkBus l)) ->
  forallb (commodity_on_bus bus_rows) rows = true ->
  forall created,
    for_each rows (sources_row filepath)
      {| nodes_sources := created; sources_busd := busd;
         sources_data := data |}
    = (Ok tt,
       {| nodes_sources :=
            created
            ++ map commodity_node
                 (List.filter (fun so => truthy (so_active so)) rows);
          sources_busd := busd; sources_data := data |}).
Proof.
  intros Hbusd. induction rows as [|so rows IH]; intros Hrows created; simpl.
  - by rewrite app_nil_r.
  - simpl in Hrows. apply andb_true_iff in Hrows as [Hso Hrows].
    rewrite bind_unfold. unfold commodity_on_bus in Hso.
    unfold sources_row at 1.
    destruct (truthy (so_active so)); simpl in *.
    + apply andb_true_iff in Hso as [Hso Hacc].
      apply andb_true_iff in Hso as [Htech Hbus].
      apply solph_Investment_accepted in Hacc.
      rewrite Htech. unfold_sources; run_monad.
      rewrite (Hbusd _ Hbus). simpl. rewrite Hacc. simpl.
      rewrite IH by done. by rewrite <- app_assoc.
    + run_monad. by rewrite IH.
Qed.

Lemma for_each_unfixed (filepath : Scenario) (busd : gmap string Bus)
    (data : DataFrame) (bus_rows : list BusRow) (rows : list SinkRow) :
  (forall l, is_active_bus bus_rows l = true -> busd !! l = Some (mkBus l)) ->
  forallb (unfixed_on_bus bus_rows) rows = true ->
  forall created,
    for_each rows (sinks_row filepath data)
      {| nodes_sinks := created; sinks_busd := busd |}
    = (Ok tt,
       {| nodes_sinks :=
            created
            ++ map unfixed_node
                 (List.filter (fun de => truthy (de_active de)) rows);
          sinks_busd := busd |}).
Proof.
  intros Hbusd. induction rows as [|de rows IH]; intros Hrows created; simpl.
  - by rewrite app_nil_r.
  - simpl in Hrows. apply andb_true_iff in Hrows as [Hde Hrows].
    rewrite bind_unfold. unfold unfixed_on_bus in Hde.
    unfold sinks_row at 1.
    destruct (truthy (de_active de)); simpl in *.
    + apply andb_true_iff in Hde as [Hlp Hbus].
      rewrite Hlp. unfold_sinks; run_monad.
      rewrite (Hbusd _ Hbus). simpl.
      rewrite IH by done. by rewrite <- app_assoc.
    + run_monad. by rewrite IH.
Qed.

(** X19. A scenario of buses, commodity sources and unfixed sinks in
    which every active source and sink names an active bus, and every
    active source has an investment that [solph.Investment] accepts, is
    built without an error when the dictionary of [buses] is handed to
    [Sources] and [Sinks]. The node list is then the given nodes, the
    nodes of the bus table in its order, one source for each active
    source row and one sink for each active sink row, each on the bus
    its row names. *)
Theorem scenario_of_commodities_builds (bus_rows : list BusRow)
    (so_rows : list SourceRow) (de_rows : list SinkRow) (nodes : list Node)
    (filepath : Scenario) (data weather : DataFrame) :
  forallb (commodity_on_bus bus_rows) so_rows = true ->
  forallb (unfixed_on_bus bus_rows) de_rows = true ->
  let built := (buses bus_rows nodes).2 in
  let with_sources :=
    Sources_init so_rows (bs_nodes built) (bs_busd built) filepath data in
  let with_sinks :=
    Sinks_init de_rows (bs_busd built) with_sources.2 filepath weather in
  with_sources.1 = Ok tt
  /\ with_sinks
     = (Ok tt,
        nodes ++ concat (map buses_row_nodes bus_rows)
        ++ map commodity_node
             (List.filter (fun so => truthy (so_active so)) so_rows)
        ++ map unfixed_node
             (List.filter (fun de => truthy (de_active de)) de_rows)).
Proof.
  intros Hso Hde built with_sources with_sinks.
  assert (Hbusd : forall l,
            is_active_bus bus_rows l = true ->
            bs_busd built !! l = Some (mkBus l)).
  { intros l Hl. subst built. unfold buses. rewrite for_each_buses_row.
    simpl. rewrite buses_busd_fold. unfold is_active_bus in Hl.
    by rewrite Hl. }
  assert (Hnodes : bs_nodes built
                   = nodes ++ concat (map buses_row_nodes bus_rows)).
  { subst built. unfold buses. by rewrite for_each_buses_row. }
  subst with_sinks with_sources. unfold Sources_init, Sinks_init.
  rewrite (for_each_commodity _ _ _ bus_rows) by done.
  simpl. split; [done|].
  rewrite (for_each_unfixed _ _ _ bus_rows) by done.
  simpl. rewrite !append_all_app, Hnodes. simpl.
  by rewrite <- !app_assoc.
Qed.

End Scenario.

Lemma scenario_of_commodities_builds_witness :
  let bus_rows := [example_bus "B"] in
  let so_rows := [example_source "grid" "other" 0] in
  let de_rows := [example_sink "x" 0] in
  let built := (buses bus_rows []).2 in
  let with_sources :=
    Sources_init so_rows (bs_nodes built) (bs_busd built) example_scenario
      example_weather in
  let with_sinks :=
    Sinks_init de_rows (bs_busd built) with_sources.2 example_scenario
      example_weather in
  with_sources.1 = Ok tt
  /\ with_sinks
     = (Ok tt,
        [] ++ concat (map buses_row_nodes bus_rows)
        ++ map commodity_node
             (List.filter (fun so => truthy (so_active so)) so_rows)
        ++ map unfixed_node
             (List.filter (fun de => truthy (de_active de)) de_rows)).
Proof.
  apply (scenario_of_commodities_builds [example_bus "B"]
           [example_source "grid" "other" 0] [example_sink "x" 0] []
           example_scenario example_weather example_weather).
  - reflexivity.
  - reflexivity.
Defined.

(** ** The dictionary of the transformers *)

Section Keeps.
Context {S : Type} (R : S -> S -> Prop) `{!PreOrder R}.

Lemma keeps_ret {A} (a : A) : keeps R (mret a : M S A).
Proof. intros s. simpl. reflexivity. Qed.

Lemma keeps_raise {A} (e : exn) : keeps R (raise e : M S A).
Proof. intros s. simpl. reflexivity. Qed.

Lemma keeps_get : keeps R (get : M S S).
Proof. intros s. simpl. reflexivity. Qed.

Lemma keeps_getitem {A} (d : gmap string A) (k : string) :
  keeps R (getitem d k : M S A).
Proof. intros s. unfold getitem. destruct (d !! k); simpl; reflexivity. Qed.

Lemma keeps_lift_result {A} (r : result A) : keeps R (lift_result r : M S A).
Proof. intros s. destruct r; simpl; reflexivity. Qed.

Lemma keeps_modify (f : S -> S) :
  (forall s, R s (f s)) -> keeps R (modify f).
Proof. intros Hf s. apply Hf. Qed.

Lemma keeps_bind {A B} (m : M S A) (f : A -> M S B) :
  keeps R m -> (forall a, keeps R (f a)) -> keeps R (m ≫= f).
Proof.
  intros Hm Hf s. rewrite bind_unfold. specialize (Hm s).
  destruct (m s) as [[a|e] s1]; simpl in *; [|done].
  etrans; [exact Hm | apply Hf].
Qed.

Lemma keeps_for_each {A} (body : A -> M S unit) (l : list A) :
  (forall x, keeps R (body x)) -> keeps R (for_each l body).
Proof.
  intros Hbody. induction l as [|x l IH]; simpl.
  - apply keeps_ret.
  - apply keeps_bind; [apply Hbody | intros _; apply IH].
Qed.

End Keeps.

Ltac keeps_step :=
  first
    [ apply keeps_ret | apply keeps_raise | apply keeps_get
    | apply keeps_getitem | apply keeps_lift_result
    | apply keeps_bind; [| | intros ?]
    | match goal with
      | |- keeps _ (match ?x with _ => _ end) => destruct x
      end ].

#[local] Instance has_keys_of_preorder : PreOrder has_keys_of.
Proof.
  split.
  - intros d k Hk. exact Hk.
  - intros d1 d2 d3 H12 H23 k Hk. apply H23, H12, Hk.
Qed.

#[local] Instance transformers_keys_preorder :
  PreOrder (fun s s' : TransformersState =>
              has_keys_of (transformers_busd s) (transformers_busd s')).
Proof.
  split.
  - intros s. reflexivity.
  - intros s1 s2 s3 H12 H23. etrans; [exact H12 | exact H23].
Qed.

Section TransformerDictionary.
Context `{Libraries}.

Lemma transformers_row_keeps_keys (periods_ : Z) (data : DataFrame)
    (t : TransformerRow) :
  keeps (fun s s' => has_keys_of (transformers_busd s) (transformers_busd s'))
        (transformers_row periods_ data t).
Proof.
  assert (Happend : forall n,
            keeps (fun s s' => has_keys_of (transformers_busd s)
                                           (transformers_busd s'))
                  (tf_append n)).
  { intros n. apply keeps_modify. intros s. simpl. reflexivity. }
  assert (Hset : forall k b,
            keeps (fun s s' => has_keys_of (transformers_busd s)
                                           (transformers_busd s'))
                  (tf_set_bus k b)).
  { intros k b. apply keeps_modify. intros s j Hj. simpl.
    apply lookup_insert_is_Some. destruct (decide (k = j)); auto. }
  unfold transformers_row, generic_transformer, compression_heat_transformer,
    genericchp_transformer, absorption_heat_transformer, create_transformer,
    cht_temperatures, tf_bus.
  repeat first [ apply Happend | apply Hset | keeps_step ].
  all: exact transformers_keys_preorder.
Qed.

(** X20. The constructor of [Transformers] enters auxiliary buses in the
    dictionary of the caller and removes nothing from it: every label
    that was in the dictionary before is in it afterwards, whether the
    build ends well or with an error. *)
Theorem transformers_keep_dictionary_keys (rows : list TransformerRow)
    (periods_ : Z) (nodes : list Node) (busd : gmap string Bus)
    (data : DataFrame) (k : string) :
  is_Some (busd !! k) ->
  is_Some ((Transformers_init rows periods_ nodes busd data).2.2 !! k).
Proof.
  intros Hk. unfold Transformers_init.
  pose proof (keeps_for_each
                (fun s s' => has_keys_of (transformers_busd s)
                                         (transformers_busd s'))
                (transformers_row periods_ data) rows
                (transformers_row_keeps_keys periods_ data)
                {| nodes_transformer := []; transformers_busd := busd |})
    as Hkeeps.
  destruct (for_each _ _ _) as [[[]|e] s]; simpl in *; by apply Hkeeps.
Qed.

End TransformerDictionary.

Lemma transformers_keep_dictionary_keys_witness :
  is_Some ((Transformers_init [example_transformer "chiller" "Sun"] 2 []
              example_busd example_weather).2.2 !! "B").
Proof.
  apply (transformers_keep_dictionary_keys
           [example_transformer "chiller" "Sun"] 2 [] example_busd
           example_weather "B").
  vm_compute. eauto.
Defined.

(** ** Heat transformers with an unknown mode or chiller *)

Lemma t_cool_of_finite (difference : Q) (temperature : list xnum) :
  forallb is_finite temperature = true ->
  exists t_cool,
    list_comprehension (fun x => py_int (xnum_add x (Fin difference)))
      temperature = Ok t_cool.
Proof.
  induction temperature as [|x l IH]; simpl; intros Hl; [by eexists|].
  apply andb_prop in Hl as [Hx Hl]. destruct (IH Hl) as [r Hr].
  destruct x; try discriminate. simpl. rewrite Hr. by eexists.
Qed.

Section HeatTransformerErrors.
Context `{Libraries}.

(** X21. A compression or absorption heat transformer whose mode is
    neither 'heat_pump' nor 'chiller' fails with an [UnboundLocalError]
    for [temp] before anything is created: the list of nodes and the
    dictionary of buses stay as they were. *)
Theorem heat_transformer_unknown_mode (t : TransformerRow) (periods_ : Z)
    (nodes : list Node) (busd : gmap string Bus) (data : DataFrame) :
  truthy (tf_active t) = true ->
  tf_transformer_type t = "compression_heat_transformer"
  \/ tf_transformer_type t = "absorption_heat_transformer" ->
  tf_mode t <> "heat_pump" ->
  tf_mode t <> "chiller" ->
  Transformers_init [t] periods_ nodes busd data
  = (Raise (UnboundLocalError "temp"), (nodes, busd)).
Proof.
  intros Hact Htype Hhp Hch. apply String.eqb_neq in Hhp, Hch.
  unfold Transformers_init, for_each, transformers_row.
  rewrite Hact.
  destruct Htype as [Htype | Htype]; rewrite Htype; simpl;
    unfold compression_heat_transformer, absorption_heat_transformer,
      mode_suffix; by rewrite Hhp, Hch.
Qed.

(** X22. An absorption heat transformer whose name has no row in the
    characteristic parameters cannot be built. When the weather data has
    no column 'temperature' the build fails with a [KeyError] for it;
    when it has the column, with finite values, the build fails with an
    [IndexError]. By then the auxiliary bus has been entered in the
    dictionary of the caller, where it stays, while the list of nodes is
    as before. *)
Theorem absorption_heat_transformer_missing_data (t : TransformerRow)
    (temp : string) (periods_ : Z) (nodes : list Node)
    (busd : gmap string Bus) (data : DataFrame) :
  truthy (tf_active t) = true ->
  tf_transformer_type t = "absorption_heat_transformer" ->
  mode_suffix (tf_mode t) = Some temp ->
  char_para !! abs_name (tf_abs t) = None ->
  match data !! "temperature" with
  | Some temperature => forallb is_finite temperature
  | None => true
  end = true ->
  let auxiliary := tf_label t +:+ temp +:+ "_bus" in
  Transformers_init [t] periods_ nodes busd data
  = (Raise match data !! "temperature" with
           | None => KeyError "temperature"
           | Some _ => IndexError
           end,
     (nodes, <[auxiliary := mkBus auxiliary]> busd)).
Proof.
  intros Hact Htype Hmode Hname Hfinite auxiliary.
  unfold Transformers_init, for_each, transformers_row.
  rewrite Hact, Htype. simpl.
  unfold absorption_heat_transformer. rewrite Hmode.
  unfold tf_bus, tf_append, tf_set_bus. run_monad. reduce_state.
  rewrite lookup_insert_eq. simpl. reduce_state.
  destruct (data !! "temperature") as [temperature|]; simpl; [|done].
  destruct (t_cool_of_finite
              (abs_recooling_temperature_difference (tf_abs t)) temperature
              Hfinite) as [t_cool Ht].
  rewrite Ht. simpl. by rewrite Hname.
Qed.

End HeatTransformerErrors.

Lemma heat_transformer_unknown_mode_witness :
  Transformers_init [example_transformer "boiler" "Air"] 2 [] example_busd
    example_weather
  = (Raise (UnboundLocalError "temp"), ([], example_busd)).
Proof.
  apply (heat_transformer_unknown_mode (example_transformer "boiler" "Air")
           2 [] example_busd example_weather).
  - reflexivity.
  - left. reflexivity.
  - discriminate.
  - discriminate.
Defined.

Lemma absorption_heat_transformer_missing_data_witness :
  Transformers_init [example_typed_transformer "absorption_heat_transformer"]
    2 [] example_busd example_cold_weather
  = (Raise IndexError,
     ([], <["T_high_temp_bus" := mkBus "T_high_temp_bus"]> example_busd)).
Proof.
  exact (absorption_heat_transformer_missing_data
           (example_typed_transformer "absorption_heat_transformer")
           "_high_temp" 2 [] example_busd example_cold_weather
           eq_refl eq_refl eq_refl eq_refl eq_refl).
Defined.

(** ** Storages *)

Section StorageProperties.
Context `{Libraries}.

(** X23. A generic storage is built from its row and its bus alone:
    the entries 'capacity min' and 'capacity max' of the row and the
    weather data have no influence on the outcome or on the node, and
    the node is given no bounds of the storage level. *)
Theorem generic_storage_ignores_level_bounds (s : StorageRow)
    (capacity_min capacity_max : Q) (nodes : list Node)
    (busd : gmap string Bus) (data data' : DataFrame) :
  s_storage_type s = "Generic" ->
  Storages_init [with_level_bounds s capacity_min capacity_max] nodes busd
    data'
  = Storages_init [s] nodes busd data
  /\ Forall (fun n => In n nodes \/ level_bounds n = Some (None, None))
       (Storages_init [s] nodes busd data).2.
Proof.
  intros Htype. unfold Storages_init, for_each, storages_row.
  simpl. rewrite Htype. simpl.
  destruct (truthy (s_active s)); simpl.
  - unfold generic_storage, st_bus, st_append. run_monad. reduce_state.
    destruct (busd !! s_bus s) as [b|] eqn:Hb; simpl.
    + reduce_state. rewrite Hb. simpl.
      change (storage_investment_of
                (with_level_bounds s capacity_min capacity_max))
        with (storage_investment_of s).
      destruct (solph_Investment (storage_investment_of s)); simpl.
      * split; [done|]. unfold append_all. simpl.
        apply Forall_app. split.
        -- apply Forall_forall. intros n Hn. left. by apply list_elem_of_In.
        -- apply Forall_cons. split; [by right | apply Forall_nil_2].
      * split; [done|]. apply Forall_forall. intros n Hn. left.
        by apply list_elem_of_In.
    + split; [done|]. apply Forall_forall. intros n Hn. left.
      by apply list_elem_of_In.
  - split; [done|]. unfold append_all. simpl.
    apply Forall_forall. intros n Hn. left. by apply list_elem_of_In.
Qed.


End StorageProperties.

Lemma generic_storage_ignores_level_bounds_witness :
  Storages_init [with_level_bounds (example_storage "Generic") 0.5 0.6] []
    example_busd example_cold_weather
  = Storages_init [example_storage "Generic"] [] example_busd example_weather
  /\ Forall (fun n => In n [] \/ level_bounds n = Some (None, None))
       (Storages_init [example_storage "Generic"] [] example_busd
          example_weather).2.
Proof.
  exact (generic_storage_ignores_level_bounds (example_storage "Generic")
           0.5 0.6 [] example_busd example_weather example_cold_weather
           eq_refl).
Defined.

